(** * Arduino_NotecardConnectionHandler: a shallow embedding

    The handler of [src/Arduino_NotecardConnectionHandler.cpp] talks to a
    Notecard through request/response transactions on JSON objects, keeps
    a one-note inbound buffer for the byte-stream interface, and computes
    the next connection state on every tick.

    The embedding threads the outside world (the Notecard, the host heap
    and the millisecond clock) through every member function as explicit
    state.  The world is an interface, so that the theorems on the handler
    hold for every behaviour of the device; a simulated Notecard with an
    inbound and an outbound queue instantiates the interface at the end. *)

From Stdlib Require Import ZArith List Bool Lia.
From Stdlib.Strings Require Import String Ascii Byte.
Import ListNotations.

Local Open Scope string_scope.
Local Open Scope Z_scope.

(** ** JSON objects of the transaction library *)

Module Json.

(** A value of a JSON field.  A binary field travels as text on the wire;
    the embedding keeps the bytes the text stands for.  The only arrays
    the handler builds are arrays of file names. *)
Inductive JValue : Type :=
| JString (s : string)
| JNumber (n : Z)
| JBoolean (b : bool)
| JBinary (bs : list byte)
| JArray (items : list string).

(** An object is the chain of its named items, in insertion order. *)
Definition J : Type := list (string * JValue).

Fixpoint JGetObjectItem (o : J) (field : string) : option JValue :=
  match o with
  | [] => None
  | (k, v) :: rest => if String.eqb k field then Some v else JGetObjectItem rest field
  end.

Definition JCreateObject : J := [].

Definition JAddItemToObject (o : J) (field : string) (v : JValue) : J :=
  (o ++ [(field, v)])%list.

Definition JAddStringToObject (o : J) (field s : string) : J :=
  JAddItemToObject o field (JString s).

Definition JAddIntToObject (o : J) (field : string) (n : Z) : J :=
  JAddItemToObject o field (JNumber n).

Definition JAddBoolToObject (o : J) (field : string) (b : bool) : J :=
  JAddItemToObject o field (JBoolean b).

Definition JAddBinaryToObject (o : J) (field : string) (bs : list byte) : J :=
  JAddItemToObject o field (JBinary bs).

(** [JAddArrayToObject] attaches an empty array and hands out a pointer to
    it; [JAddItemToArray] then grows the array in place.  The embedding
    names the array by the field that owns it. *)
Definition JAddEmptyArrayToObject (o : J) (field : string) : J :=
  JAddItemToObject o field (JArray []).

Fixpoint JAddItemToArray (o : J) (field : string) (item : string) : J :=
  match o with
  | [] => []
  | (k, v) :: rest =>
      if String.eqb k field then
        match v with
        | JArray items => (k, JArray (items ++ [item])%list) :: rest
        | _ => (k, v) :: rest
        end
      else (k, v) :: JAddItemToArray rest field item
  end.

(** The text of a field, and the empty text when the field is absent or
    is not text; a null object reads as an object without fields. *)
Definition JGetString (o : option J) (field : string) : string :=
  match o with
  | None => EmptyString
  | Some o =>
      match JGetObjectItem o field with
      | Some (JString s) => s
      | _ => EmptyString
      end
  end.

Definition JGetBool (o : option J) (field : string) : bool :=
  match o with
  | None => false
  | Some o =>
      match JGetObjectItem o field with
      | Some (JBoolean b) => b
      | _ => false
      end
  end.

(** The number of a field, and zero when the field is absent or is not a
    number. *)
Definition JGetInt (o : option J) (field : string) : Z :=
  match o with
  | None => 0
  | Some o =>
      match JGetObjectItem o field with
      | Some (JNumber n) => n
      | _ => 0
      end
  end.

(** Modelled from the spec: [JGetBinaryFromObject] belongs to the
    transaction library, which is not among the sources.  The spec gives a
    note a binary [payload] field and has the handler adopt it; the
    function yields the payload of the field, and [None], which leaves its
    out-parameters as they were, when the field holds no payload.  What the
    library does with a payload of no bytes is not in the spec: no theorem
    of a claim depends on it. *)
Definition JGetBinaryFromObject (o : J) (field : string) : option (list byte) :=
  match JGetObjectItem o field with
  | Some (JBinary bs) => Some bs
  | _ => None
  end.

(** The text begins with the token. *)
Fixpoint starts_with (text token : string) {struct token} : bool :=
  match token with
  | EmptyString => true
  | String c token =>
      match text with
      | EmptyString => false
      | String d text => Ascii.eqb c d && starts_with text token
      end
  end.

(** [strstr (haystack, needle) != nullptr]. *)
Fixpoint strstr (haystack needle : string) : bool :=
  if starts_with haystack needle then true
  else match haystack with
       | EmptyString => false
       | String _ rest => strstr rest needle
       end.

(** Modelled from the spec: the macro [NoteResponseError] belongs to the
    transaction library, which is not among the sources.  A response
    signals a protocol error when its [err] field is present and is not
    empty. *)
Definition NoteResponseError (rsp : option J) : bool :=
  negb (String.eqb (JGetString rsp "err") EmptyString).

(** Modelled from the spec: [NoteErrorContains] of the same library, a
    token match in the error text. *)
Definition NoteErrorContains (err token : string) : bool := strstr err token.

End Json.
Import Json.

(** ** Constants of the translation unit *)

Definition NOTEFILE_BASE_NAME : string := "arduino_iot_cloud".
Definition NOTEFILE_INBOUND_LORA_PORT : Z := 79.
Definition NOTEFILE_OUTBOUND_LORA_PORT : Z := 83.
Definition NOTEFILE_SSL_INBOUND : string := NOTEFILE_BASE_NAME ++ ".qis".
Definition NOTEFILE_SSL_OUTBOUND : string := NOTEFILE_BASE_NAME ++ ".qos".

(** ** Types of the handler *)

Inductive NetworkConnectionState : Type :=
| INIT | CONNECTING | CONNECTED | DISCONNECTING | DISCONNECTED | CLOSED | ERROR.

Definition state_eqb (a b : NetworkConnectionState) : bool :=
  match a, b with
  | INIT, INIT | CONNECTING, CONNECTING | CONNECTED, CONNECTED
  | DISCONNECTING, DISCONNECTING | DISCONNECTED, DISCONNECTED
  | CLOSED, CLOSED | ERROR, ERROR => true
  | _, _ => false
  end.

Inductive NotecardCommunicationError : Type :=
| NOTECARD_ERROR_NONE
| NOTECARD_ERROR_NO_DATA_AVAILABLE
| NOTECARD_ERROR_GENERIC
| HOST_ERROR_OUT_OF_MEMORY.

(** Modelled from the spec: the header that declares the enumerators of
    [NotecardCommunicationError] is not among the sources.  The spec asks
    for three distinct statuses of [write] and for a no-data sentinel of
    [read] that no byte equals; success is zero and the errors are the
    negative numbers below. *)
Definition error_code (e : NotecardCommunicationError) : Z :=
  match e with
  | NOTECARD_ERROR_NONE => 0
  | NOTECARD_ERROR_NO_DATA_AVAILABLE => -1
  | NOTECARD_ERROR_GENERIC => -2
  | HOST_ERROR_OUT_OF_MEMORY => -3
  end.

(** The bit-field struct of the status probe: four one-bit booleans and a
    four-bit reserved field. *)
Record NotecardConnectionStatus : Type := mkStatus {
  transport_connected : bool;
  connected_to_notehub : bool;
  notecard_error : bool;
  host_error : bool;
  reserved : Z
}.

(** The default constructor clears every field. *)
Definition status_default : NotecardConnectionStatus :=
  mkStatus false false false false 0.

(** An integer stored into a [bool] bit-field is true when it is not zero. *)
Definition to_bool (x : Z) : bool := negb (x =? 0).

(** A value stored into the four-bit [reserved] field keeps its low four
    bits. *)
Definition to_nibble (x : Z) : Z := Z.land x 15.

(** The converting constructor from [uint_fast8_t]. *)
Definition status_of_uint (x : Z) : NotecardConnectionStatus :=
  mkStatus (to_bool (Z.land x 1))
           (to_bool (Z.land x 2))
           (to_bool (Z.land x 4))
           (to_bool (Z.land x 8))
           (to_nibble (Z.land x 240)).

(** The conversion operator to [uint_fast8_t]. *)
Definition status_to_uint (s : NotecardConnectionStatus) : Z :=
  Z.lor (Z.shiftl (reserved s) 4)
   (Z.lor (Z.shiftl (Z.b2z (host_error s)) 3)
     (Z.lor (Z.shiftl (Z.b2z (notecard_error s)) 2)
       (Z.lor (Z.shiftl (Z.b2z (connected_to_notehub s)) 1)
              (Z.b2z (transport_connected s))))).

Definition set_transport_connected (b : bool) (s : NotecardConnectionStatus) :=
  mkStatus b (connected_to_notehub s) (notecard_error s) (host_error s) (reserved s).
Definition set_connected_to_notehub (b : bool) (s : NotecardConnectionStatus) :=
  mkStatus (transport_connected s) b (notecard_error s) (host_error s) (reserved s).
Definition set_notecard_error (b : bool) (s : NotecardConnectionStatus) :=
  mkStatus (transport_connected s) (connected_to_notehub s) b (host_error s) (reserved s).
Definition set_host_error (b : bool) (s : NotecardConnectionStatus) :=
  mkStatus (transport_connected s) (connected_to_notehub s) (notecard_error s) b (reserved s).

(** The two transports of the constructors: a serial port at a speed, or
    an I2C bus with an address and a maximum transaction size. *)
Definition HardwareSerial : Type := nat.
Definition TwoWire : Type := nat.

Inductive Transport : Type :=
| OverSerial (port : HardwareSerial) (speed : Z)
| OverI2C (address max : Z) (bus : option TwoWire).

Record NotecardConnectionHandler : Type := mkHandler {
  _keep_alive : bool;
  _serial : option HardwareSerial;
  _wire : option TwoWire;
  _inbound_buffer : list byte;
  _conn_start_ms : Z;
  _i2c_address : Z;
  _i2c_max : Z;
  _uart_speed : Z;
  _inbound_buffer_index : Z;
  _inbound_buffer_size : Z;
  _en_hw_int : bool;
  _dev_uid : string;
  _notehub_url : string;
  _project_uid : string
}.

(** The I2C constructor. *)
Definition new_i2c (project_uid : string) (en_hw_int keep_alive : bool)
    (i2c_address i2c_max : Z) (wire : TwoWire) (notehub_url : string)
  : NotecardConnectionHandler :=
  mkHandler keep_alive None (Some wire) [] 0 i2c_address i2c_max 0 0 0
            en_hw_int EmptyString notehub_url project_uid.

(** The serial constructor. *)
Definition new_serial (project_uid : string) (serial : HardwareSerial) (speed : Z)
    (en_hw_int keep_alive : bool) (notehub_url : string)
  : NotecardConnectionHandler :=
  mkHandler keep_alive (Some serial) None [] 0 0 0 speed 0 0
            en_hw_int EmptyString notehub_url project_uid.

Definition set_inbound_buffer (bs : list byte) (size : Z) (h : NotecardConnectionHandler) :=
  mkHandler (_keep_alive h) (_serial h) (_wire h) bs (_conn_start_ms h)
            (_i2c_address h) (_i2c_max h) (_uart_speed h)
            (_inbound_buffer_index h) size (_en_hw_int h)
            (_dev_uid h) (_notehub_url h) (_project_uid h).

Definition set_inbound_buffer_index (i : Z) (h : NotecardConnectionHandler) :=
  mkHandler (_keep_alive h) (_serial h) (_wire h) (_inbound_buffer h) (_conn_start_ms h)
            (_i2c_address h) (_i2c_max h) (_uart_speed h)
            i (_inbound_buffer_size h) (_en_hw_int h)
            (_dev_uid h) (_notehub_url h) (_project_uid h).

Definition set_conn_start_ms (t : Z) (h : NotecardConnectionHandler) :=
  mkHandler (_keep_alive h) (_serial h) (_wire h) (_inbound_buffer h) t
            (_i2c_address h) (_i2c_max h) (_uart_speed h)
            (_inbound_buffer_index h) (_inbound_buffer_size h) (_en_hw_int h)
            (_dev_uid h) (_notehub_url h) (_project_uid h).

Definition set_dev_uid (uid : string) (h : NotecardConnectionHandler) :=
  mkHandler (_keep_alive h) (_serial h) (_wire h) (_inbound_buffer h) (_conn_start_ms h)
            (_i2c_address h) (_i2c_max h) (_uart_speed h)
            (_inbound_buffer_index h) (_inbound_buffer_size h) (_en_hw_int h)
            uid (_notehub_url h) (_project_uid h).

(** Arithmetic of [uint32_t] and of the 32-bit [unsigned long]. *)
Definition wrap32 (x : Z) : Z := x mod 2 ^ 32.

(** ** The outside world

    Everything the handler reaches through the transaction library and the
    Arduino core: the host heap (an allocation succeeds or not), the
    transport set up by [begin], the Notecard answering a request (no
    answer when the transaction fails), and the millisecond clock. *)

Class World (W : Type) : Type := {
  host_alloc : W -> bool * W;
  notecard_begin : Transport -> W -> W;
  transaction : J -> W -> option J * W;
  millis : W -> Z
}.

(** Member functions thread the world: a state monad over it. *)
Definition M (W A : Type) : Type := W -> A * W.

Definition ret {W A : Type} (a : A) : M W A := fun w => (a, w).

Definition bind {W A B : Type} (m : M W A) (k : A -> M W B) : M W B :=
  fun w => let (a, w') := m w in k a w'.

Notation "x <- m ;; k" := (bind m (fun x => k))
  (at level 61, m at next level, right associativity).
Notation "' pat <- m ;; k" := (bind m (fun x => match x with pat => k end))
  (at level 61, pat pattern, m at next level, right associativity).

Section Handler.

Context {W : Type} `{World W}.

(** The connection timeout comes from the header, which is not among the
    sources: every handler below is stated for an arbitrary value. *)
Variable NOTEHUB_CONN_TIMEOUT_MS : Z.

(** [Notecard::newRequest]: a fresh object naming the request, or null
    when the host cannot allocate it. *)
Definition newRequest (request : string) : M W (option J) :=
  ok <- host_alloc ;;
  ret (if ok : bool then Some (JAddStringToObject JCreateObject "req" request) else None).

(** [Notecard::requestAndResponse]: a null request is answered by null. *)
Definition requestAndResponse (req : option J) : M W (option J) :=
  match req with
  | None => ret None
  | Some r => transaction r
  end.

Definition JAddArrayToObject (o : J) (field : string) : M W (option J) :=
  ok <- host_alloc ;;
  ret (if ok : bool then Some (JAddEmptyArrayToObject o field) else None).

Definition now : M W Z := fun w => (millis w, w).

Definition begin (t : Transport) : M W unit := fun w => (tt, notecard_begin t w).

(** *** Private member functions *)

Definition armInterrupt : M W bool :=
  req <- newRequest "card.attn" ;;
  match req with
  | Some req =>
      let req := JAddStringToObject req "mode" "rearm,files" in
      files <- JAddArrayToObject req "files" ;;
      match files with
      | Some req =>
          let req := JAddItemToArray req "files" NOTEFILE_SSL_INBOUND in
          rsp <- requestAndResponse (Some req) ;;
          if NoteResponseError rsp then
            ret true  (* Ignore the error *)
          else
            ret true
      | None => ret false
      end
  | None => ret false
  end.

Definition configureConnection (h : NotecardConnectionHandler) (connect : bool)
  : M W bool :=
  req <- newRequest "hub.set" ;;
  match req with
  | Some req =>
      let req := JAddStringToObject req "host" (_notehub_url h) in
      let req := JAddStringToObject req "product" (_project_uid h) in
      let req :=
        if connect then
          let req := JAddStringToObject req "mode" "continuous" in
          let req := JAddIntToObject req "inbound" 15 in
          JAddBoolToObject req "sync" true
        else
          let req := JAddStringToObject req "mode" "periodic" in
          let req := JAddIntToObject req "inbound" 1440 in
          let req := JAddIntToObject req "outbound" (-1) in
          let req := JAddStringToObject req "vinbound" "-" in
          JAddStringToObject req "voutbound" "-" in
      rsp <- requestAndResponse (Some req) ;;
      if NoteResponseError rsp then ret false else ret true
  | None => ret false
  end.

(** [connected] fills the bit-field struct and returns it through its
    conversion to [uint_fast8_t]. *)
Definition connected : M W Z :=
  let result := status_default in
  req <- newRequest "hub.status" ;;
  rsp <- requestAndResponse req ;;
  match rsp with
  | Some _ =>
      if NoteResponseError rsp then
        let result := set_notecard_error true result in
        ret (status_to_uint result)
      else
        let result :=
          set_transport_connected (strstr (JGetString rsp "status") "{connected}") result in
        let result := set_connected_to_notehub (JGetBool rsp "connected") result in
        let result := set_notecard_error false result in
        let result := set_host_error false result in
        ret (status_to_uint result)
  | None =>
      let result := set_transport_connected false result in
      let result := set_connected_to_notehub false result in
      let result := set_notecard_error false result in
      let result := set_host_error true result in
      ret (status_to_uint result)
  end.

Definition getNote (h : NotecardConnectionHandler) (pop : bool) : M W (option J) :=
  req <- newRequest "note.get" ;;
  match req with
  | Some req =>
      let req := JAddStringToObject req "file" NOTEFILE_SSL_INBOUND in
      let req := if pop then JAddBoolToObject req "delete" true else req in
      note <- requestAndResponse (Some req) ;;
      if NoteResponseError note then
        let jErr := JGetString note "err" in
        _ <- (if NoteErrorContains jErr "{note-noexist}" then
                if _en_hw_int h then armInterrupt else ret false
              else ret false) ;;
        ret None
      else
        ret note
  | None => ret None
  end.

(** *** Public member functions *)

Definition write (h : NotecardConnectionHandler) (buf : list byte) : M W Z :=
  req <- newRequest "note.add" ;;
  match req with
  | Some req =>
      let req := JAddStringToObject req "file" NOTEFILE_SSL_OUTBOUND in
      let req := JAddBinaryToObject req "payload" buf in
      let req := if _keep_alive h then JAddBoolToObject req "sync" true else req in
      rsp <- requestAndResponse (Some req) ;;
      if NoteResponseError rsp then
        ret (error_code NOTECARD_ERROR_GENERIC)
      else
        ret (error_code NOTECARD_ERROR_NONE)
  | None => ret (error_code HOST_ERROR_OUT_OF_MEMORY)
  end.

(** [getTime] stores the number of the answer in an [unsigned long]. *)
Definition getTime : M W Z :=
  req <- newRequest "card.time" ;;
  rsp <- requestAndResponse req ;;
  match rsp with
  | Some _ =>
      if NoteResponseError rsp then ret 0
      else ret (wrap32 (JGetInt rsp "time"))
  | None => ret 0
  end.

Definition byte_to_int (b : byte) : Z := Z.of_N (Byte.to_N b).

(** The subscript of [read] is a raw pointer access: [None] stands for an
    access outside the buffer, which has no defined result. *)
Definition read (h : NotecardConnectionHandler)
  : M W (option (Z * NotecardConnectionHandler)) :=
  if _inbound_buffer_index h <? _inbound_buffer_size h then
    match nth_error (_inbound_buffer h) (Z.to_nat (_inbound_buffer_index h)) with
    | Some b =>
        ret (Some (byte_to_int b,
                   set_inbound_buffer_index (wrap32 (_inbound_buffer_index h + 1)) h))
    | None => ret None
    end
  else
    ret (Some (error_code NOTECARD_ERROR_NO_DATA_AVAILABLE, h)).

Definition available (h : NotecardConnectionHandler)
  : M W (bool * NotecardConnectionHandler) :=
  let buffered_data := _inbound_buffer_index h <? _inbound_buffer_size h in
  if negb buffered_data then
    note <- getNote h true ;;
    match note with
    | Some note =>
        let h :=
          match JGetBinaryFromObject note "payload" with
          | Some bs => set_inbound_buffer bs (wrap32 (Z.of_nat (List.length bs))) h
          | None => h
          end in
        let h := set_inbound_buffer_index 0 h in
        ret (true, h)
    | None => ret (buffered_data, h)
    end
  else ret (buffered_data, h).

(** *** Protected member functions: the state handlers *)

(** One template declaration of [update_handleInit]. *)
Definition declareTemplate (file : string) (port : Z) : M W NetworkConnectionState :=
  req <- newRequest "note.template" ;;
  match req with
  | Some req =>
      let req := JAddStringToObject req "file" file in
      let req := JAddStringToObject req "format" "compact" in
      let req := JAddIntToObject req "port" port in
      rsp <- requestAndResponse (Some req) ;;
      if NoteResponseError rsp then ret ERROR else ret INIT
  | None => ret ERROR  (* Assume the worst *)
  end.

(** The last step of [update_handleInit]: the device UID, and the
    transition out of [INIT]. *)
Definition getDeviceUid (h : NotecardConnectionHandler)
  : M W (NetworkConnectionState * NotecardConnectionHandler) :=
  req <- newRequest "hub.get" ;;
  rsp <- requestAndResponse req ;;
  match rsp with
  | Some _ =>
      if NoteResponseError rsp then ret (ERROR, h)
      else
        let h := set_dev_uid (JGetString rsp "device") h in
        if _keep_alive h then
          t <- now ;;
          ret (CONNECTING, set_conn_start_ms t h)
        else
          ret (DISCONNECTED, h)
  | None => ret (ERROR, h)  (* Assume the worst *)
  end.

(** The local [result] of [update_handleInit] is declared without an
    initialiser and is assigned only when the inbound probe finds a note.
    The local is an [option]: [None] is the indeterminate value, and a
    comparison that reads it has no defined outcome, so that the handler
    has no defined next state ([None]) from there on. *)
Definition update_handleInit (h : NotecardConnectionHandler)
  : M W (option NetworkConnectionState * NotecardConnectionHandler) :=
  let result : option NetworkConnectionState := None in
  _ <- begin (match _serial h with
              | Some serial => OverSerial serial (_uart_speed h)
              | None => OverI2C (_i2c_address h) (_i2c_max h) (_wire h)
              end) ;;
  note <- getNote h false ;;
  let result := match note with Some _ => Some INIT | None => result end in
  match result with
  | None => ret (None, h)
  | Some result =>
      (* Set the project UID *)
      result <- (if state_eqb INIT result then
                   ok <- configureConnection h true ;;
                   ret (if ok : bool then INIT else ERROR)
                 else ret result) ;;
      (* Set inbound template *)
      result <- (if state_eqb INIT result then
                   declareTemplate NOTEFILE_SSL_INBOUND NOTEFILE_INBOUND_LORA_PORT
                 else ret result) ;;
      (* Set outbound template *)
      result <- (if state_eqb INIT result then
                   declareTemplate NOTEFILE_SSL_OUTBOUND NOTEFILE_OUTBOUND_LORA_PORT
                 else ret result) ;;
      (* Get the device UID *)
      '(result, h) <- (if state_eqb INIT result then getDeviceUid h
                       else ret (result, h)) ;;
      ret (Some result, h)
  end.

(** The four guarded steps of [update_handleInit] that follow the probe,
    from a given content of the local [result]. *)
Definition initSteps (result : NetworkConnectionState) (h : NotecardConnectionHandler)
  : M W (NetworkConnectionState * NotecardConnectionHandler) :=
  (* Set the project UID *)
  result <- (if state_eqb INIT result then
               ok <- configureConnection h true ;;
               ret (if ok : bool then INIT else ERROR)
             else ret result) ;;
  (* Set inbound template *)
  result <- (if state_eqb INIT result then
               declareTemplate NOTEFILE_SSL_INBOUND NOTEFILE_INBOUND_LORA_PORT
             else ret result) ;;
  (* Set outbound template *)
  result <- (if state_eqb INIT result then
               declareTemplate NOTEFILE_SSL_OUTBOUND NOTEFILE_OUTBOUND_LORA_PORT
             else ret result) ;;
  (* Get the device UID *)
  (if state_eqb INIT result then getDeviceUid h else ret (result, h)).

(** [update_handleInit] as a compiler that keeps the local in a stack slot
    runs it: [garbage] is what the slot holds when the function is
    entered.  The probe overwrites it only when it finds a note; every
    later comparison and the final [return] read whatever is there. *)
Definition update_handleInit_from (garbage : NetworkConnectionState)
    (h : NotecardConnectionHandler)
  : M W (NetworkConnectionState * NotecardConnectionHandler) :=
  let result := garbage in
  _ <- begin (match _serial h with
              | Some serial => OverSerial serial (_uart_speed h)
              | None => OverI2C (_i2c_address h) (_i2c_max h) (_wire h)
              end) ;;
  note <- getNote h false ;;
  let result := match note with Some _ => INIT | None => result end in
  initSteps result h.

(** [millis () - _conn_start_ms] on the 32-bit [unsigned long]. *)
Definition elapsed_ms (t start : Z) : Z := wrap32 (t - start).

Definition update_handleConnecting (h : NotecardConnectionHandler)
  : M W NetworkConnectionState :=
  x <- connected ;;
  let conn_status := status_of_uint x in
  if negb (connected_to_notehub conn_status) then
    t <- now ;;
    if elapsed_ms t (_conn_start_ms h) >? NOTEHUB_CONN_TIMEOUT_MS then
      ret INIT
    else
      ret CONNECTING
  else
    ret CONNECTED.

Definition update_handleConnected (h : NotecardConnectionHandler)
  : M W NetworkConnectionState :=
  x <- connected ;;
  let conn_status := status_of_uint x in
  if negb (connected_to_notehub conn_status) then
    ret DISCONNECTED
  else
    ret CONNECTED.

Definition update_handleDisconnecting (h : NotecardConnectionHandler)
  : M W NetworkConnectionState :=
  ret DISCONNECTED.

Definition update_handleDisconnected (h : NotecardConnectionHandler)
  : M W NetworkConnectionState :=
  if _keep_alive h then
    ret INIT
  else
    ok <- configureConnection h false ;;
    if ok : bool then ret CLOSED else ret ERROR.

End Handler.

Arguments update_handleConnecting {W _} NOTEHUB_CONN_TIMEOUT_MS h _.

(** ** Drivers of the stream interface and of the steady state *)

Section Drivers.

Context {W : Type} `{World W}.


(** The consumer loop [while (available ()) out.push (read ())], with fuel
    for the number of iterations. *)
Fixpoint drain (fuel : nat) (h : NotecardConnectionHandler)
  : M W (option (list Z * NotecardConnectionHandler)) :=
  match fuel with
  | O => ret None
  | S fuel =>
      '(a, h) <- available h ;;
      if a : bool then
        r <- read h ;;
        match r with
        | None => ret None
        | Some (x, h) =>
            rest <- drain fuel h ;;
            ret (match rest with
                 | Some (l, h) => Some (x :: l, h)
                 | None => None
                 end)
        end
      else ret (Some ([], h))
  end.

(** The transaction of the status probe: the response that [connected]
    decodes. *)
Definition hub_status_response : M W (option J) :=
  req <- newRequest "hub.status" ;;
  requestAndResponse req.

(** The status probe reports relay-connected on each of the next [n]
    queries. *)
Fixpoint relay_connected_for (n : nat) (w : W) : bool :=
  match n with
  | O => true
  | S n =>
      let (x, w') := connected w in
      connected_to_notehub (status_of_uint x) && relay_connected_for n w'
  end.

(** Ticks of the driver while the handler stays in [CONNECTED]. *)
Fixpoint connected_ticks (n : nat) (h : NotecardConnectionHandler)
  : M W NetworkConnectionState :=
  match n with
  | O => ret CONNECTED
  | S n =>
      st <- update_handleConnected h ;;
      if state_eqb st CONNECTED then connected_ticks n h else ret st
  end.

End Drivers.

(** The inbound buffer and its cursor: the size is the length of the
    buffer, the cursor is within it, and both fit [uint32_t]. *)
Definition buffer_ok (h : NotecardConnectionHandler) : Prop :=
  _inbound_buffer_size h = Z.of_nat (List.length (_inbound_buffer h)) /\
  0 <= _inbound_buffer_index h <= _inbound_buffer_size h /\
  _inbound_buffer_size h < 2 ^ 32.

(** No unread byte is left in the inbound buffer. *)
Definition exhausted (h : NotecardConnectionHandler) : Prop :=
  _inbound_buffer_size h <= _inbound_buffer_index h.

(** A text holds a token: some text before it, some text after it. *)
Definition contains_token (text token : string) : Prop :=
  exists before after : string, text = before ++ token ++ after.

(** ** A scripted Notecard

    A test double that replays a script: the outcomes of the coming host
    allocations, the answers to the coming transactions (no answer is a
    failed transaction) and the value of the clock.  Allocations succeed
    and transactions answer by an object without fields once a script is
    used up.  The double keeps the requests it was sent. *)

Module Scripted.

Record Notecard : Type := mk {
  allocations : list bool;
  answers : list (option J);
  time : Z;
  sent : list J
}.

Definition alloc (s : Notecard) : bool * Notecard :=
  match allocations s with
  | [] => (true, s)
  | b :: rest => (b, mk rest (answers s) (time s) (sent s))
  end.

Definition transact (req : J) (s : Notecard) : option J * Notecard :=
  match answers s with
  | [] => (Some [], mk (allocations s) [] (time s) (sent s ++ [req])%list)
  | a :: rest => (a, mk (allocations s) rest (time s) (sent s ++ [req])%list)
  end.

#[global] Instance world : World Notecard := {
  host_alloc := alloc;
  notecard_begin := fun _ s => s;
  transaction := transact;
  millis := time
}.

End Scripted.

(** ** A Notecard with a loop-back relay

    The two notefiles of the handler as queues of payloads.  [note.add] on
    the outbound file queues its payload, [note.get] on the inbound file
    answers by the oldest note, or by the queue-empty error, and removes
    the note when the request asks to delete it.  The relay delivers what
    the outbound file holds to the inbound file. *)

Module Loopback.

Record Notecard : Type := mk {
  outbound : list (list byte);
  inbound : list (list byte);
  clock : Z
}.

Definition ok_response : J := [].

Definition error_response (text : string) : J := [("err", JString text)].

Definition note_add (req : J) (s : Notecard) : option J * Notecard :=
  if String.eqb (JGetString (Some req) "file") NOTEFILE_SSL_OUTBOUND then
    match JGetBinaryFromObject req "payload" with
    | Some payload =>
        (Some ok_response, mk (outbound s ++ [payload])%list (inbound s) (clock s))
    | None => (Some (error_response "no payload {bad-request}"), s)
    end
  else (Some (error_response "unknown notefile {notefile-noexist}"), s).

Definition note_get (req : J) (s : Notecard) : option J * Notecard :=
  if String.eqb (JGetString (Some req) "file") NOTEFILE_SSL_INBOUND then
    match inbound s with
    | [] => (Some (error_response "no notes available in queue {note-noexist}"), s)
    | payload :: rest =>
        (Some [("payload", JBinary payload)],
         if JGetBool (Some req) "delete" then mk (outbound s) rest (clock s) else s)
    end
  else (Some (error_response "unknown notefile {notefile-noexist}"), s).

Definition transact (req : J) (s : Notecard) : option J * Notecard :=
  let name := JGetString (Some req) "req" in
  if String.eqb name "note.add" then note_add req s
  else if String.eqb name "note.get" then note_get req s
  else (Some ok_response, s).

Definition relay (s : Notecard) : Notecard :=
  mk [] (inbound s ++ outbound s)%list (clock s).

#[global] Instance world : World Notecard := {
  host_alloc := fun s => (true, s);
  notecard_begin := fun _ s => s;
  transaction := transact;
  millis := clock
}.

End Loopback.

(** ** Sample handlers and worlds *)

Module Samples.

(** A handler on the I2C bus, with keep-alive and the hardware interrupt. *)
Definition handler : NotecardConnectionHandler :=
  new_i2c "com.example:sensor" true true 23 30 0%nat EmptyString.

(** The same handler in the middle of a two-byte note. *)
Definition reading : NotecardConnectionHandler :=
  set_inbound_buffer_index 1 (set_inbound_buffer [x41; x42]%byte 2 handler).

(** A status answer: local transport up, relay not yet reached. *)
Definition transport_only : J :=
  [("status", JString "{connected-closed} {connected}"); ("connected", JBoolean false)].

(** A status answer: relay reached. *)
Definition relay_up : J :=
  [("status", JString "{connected}"); ("connected", JBoolean true)].

Definition scripted (allocations : list bool) (answers : list (option J)) (time : Z)
  : Scripted.Notecard :=
  Scripted.mk allocations answers time [].

(** A Notecard with both queues empty. *)
Definition idle : Loopback.Notecard := Loopback.mk [] [] 4242.

(** A Notecard with one note waiting in the inbound queue. *)
Definition pending : Loopback.Notecard := Loopback.mk [] [[x07]%byte] 4242.

End Samples.

(** ** Proof steps *)

(** Unfold the monad and the wrappers of the transaction library. *)
Ltac run :=
  unfold hub_status_response, newRequest, requestAndResponse, JAddArrayToObject,
    now, begin, bind, ret in *.

(** Read the buffer fields of an updated handler. *)
Ltac fields :=
  unfold set_inbound_buffer_index, set_inbound_buffer;
  cbn [_inbound_buffer _inbound_buffer_index _inbound_buffer_size].

(** * Properties *)

(** ** Token matching *)

Lemma starts_with_app (text token : string) :
  starts_with text token = true <-> exists rest, text = token ++ rest.
Proof.
  revert text; induction token as [|c token IH]; intros text; simpl.
  - split; [intros _; now exists text | reflexivity].
  - destruct text as [|d text].
    + split; [discriminate | intros [rest E]; discriminate].
    + rewrite andb_true_iff, Ascii.eqb_eq, IH. split.
      * intros [-> [rest ->]]; now exists rest.
      * intros [rest E]; inversion E; split; [reflexivity | now exists rest].
Qed.

Lemma strstr_here (text token : string) :
  starts_with text token = true -> strstr text token = true.
Proof. intros P; destruct text; cbn [strstr]; now rewrite P. Qed.

Lemma strstr_later (c : ascii) (text token : string) :
  strstr text token = true -> strstr (String c text) token = true.
Proof. intros S; cbn [strstr]; rewrite S; now destruct (starts_with _ _). Qed.

Lemma strstr_contains (text token : string) :
  strstr text token = true <-> contains_token text token.
Proof.
  unfold contains_token; split.
  - induction text as [|c text IH]; cbn [strstr];
      destruct (starts_with _ token) eqn:P.
    + intros _; apply starts_with_app in P as [rest E]; now exists EmptyString, rest.
    + discriminate.
    + intros _; apply starts_with_app in P as [rest E]; now exists EmptyString, rest.
    + intros S; destruct (IH S) as (before & after & E).
      exists (String c before), after; now rewrite E.
  - intros (before & after & E); subst text.
    induction before as [|c before IH].
    + apply strstr_here, starts_with_app; now exists after.
    + apply strstr_later, IH.
Qed.

(** ** The status byte *)

Lemma status_uint_roundtrip (s : NotecardConnectionStatus) :
  reserved s = 0 -> status_of_uint (status_to_uint s) = s.
Proof.
  destruct s as [[] [] [] [] r]; simpl; intros ->; reflexivity.
Qed.

Lemma byte_to_int_range (b : byte) : 0 <= byte_to_int b < 256.
Proof. destruct b; vm_compute; split; congruence. Qed.

(** ** The handler over an arbitrary world *)

Section Correctness.

Context {W : Type} `{World W}.

(** *** The status probe *)

(** The struct that [connected] fills, by the response to its query. *)
Lemma connected_decoded (w : W) :
  exists st : NotecardConnectionStatus,
    fst (connected w) = status_to_uint st /\
    snd (connected w) = snd (hub_status_response w) /\
    st = match fst (hub_status_response w) with
         | None => mkStatus false false false true 0
         | Some r =>
             if NoteResponseError (Some r) then mkStatus false false true false 0
             else mkStatus (strstr (JGetString (Some r) "status") "{connected}")
                           (JGetBool (Some r) "connected") false false 0
         end.
Proof.
  unfold connected; run.
  destruct (host_alloc w) as [[|] w1]; cbn [fst snd].
  - destruct (transaction _ w1) as [[r|] w2]; cbn [fst snd].
    + destruct (NoteResponseError (Some r)); eexists; repeat split.
    + eexists; repeat split.
  - eexists; repeat split.
Qed.

Lemma connected_status (w : W) :
  status_of_uint (fst (connected w)) =
    match fst (hub_status_response w) with
    | None => mkStatus false false false true 0
    | Some r =>
        if NoteResponseError (Some r) then mkStatus false false true false 0
        else mkStatus (strstr (JGetString (Some r) "status") "{connected}")
                      (JGetBool (Some r) "connected") false false 0
    end.
Proof.
  destruct (connected_decoded w) as (st & -> & _ & E).
  rewrite status_uint_roundtrip; [exact E | subst st].
  destruct (fst (hub_status_response w)) as [r|]; [|reflexivity].
  now destruct (NoteResponseError (Some r)).
Qed.

(** C5.  When the status query is answered and the answer carries no
    protocol error, the decoded status has both error flags clear, its
    [transport_connected] is true exactly when the status text holds the
    token [{connected}], and its [connected_to_notehub] is the boolean
    field [connected] of the answer; so a text with the token and a false
    boolean decode to local transport up, relay down. *)
Theorem connected_decodes_response (w : W) (r : J) :
  fst (hub_status_response w) = Some r ->
  NoteResponseError (Some r) = false ->
  let st := status_of_uint (fst (connected w)) in
  notecard_error st = false /\
  host_error st = false /\
  (transport_connected st = true <->
     contains_token (JGetString (Some r) "status") "{connected}") /\
  connected_to_notehub st = JGetBool (Some r) "connected" /\
  (contains_token (JGetString (Some r) "status") "{connected}" ->
   JGetBool (Some r) "connected" = false ->
   transport_connected st = true /\ connected_to_notehub st = false).
Proof.
  intros R E st; subst st.
  rewrite connected_status, R, E; cbn [notecard_error host_error
    transport_connected connected_to_notehub].
  pose proof (strstr_contains (JGetString (Some r) "status") "{connected}") as T.
  repeat split; try apply T; trivial.
Qed.

(** C6.  When the status query gets no answer (the request cannot be
    built, or the transaction fails), the decoded status has [host_error]
    set, [notecard_error] clear and both connectivity flags false; and
    whatever the world answers, the two error flags are never both set. *)
Theorem connected_error_flags (w : W) :
  let st := status_of_uint (fst (connected w)) in
  (fst (hub_status_response w) = None ->
   host_error st = true /\ notecard_error st = false /\
   transport_connected st = false /\ connected_to_notehub st = false) /\
  (notecard_error st && host_error st = false).
Proof.
  intros st; subst st; rewrite connected_status.
  destruct (fst (hub_status_response w)) as [r|].
  - split; [discriminate|]. now destruct (NoteResponseError (Some r)).
  - split; [intros _; repeat split | reflexivity].
Qed.

(** *** The steady states *)

Lemma update_handleConnected_eq (h : NotecardConnectionHandler) (w : W) :
  update_handleConnected h w =
    (if connected_to_notehub (status_of_uint (fst (connected w)))
     then CONNECTED else DISCONNECTED,
     snd (connected w)).
Proof.
  unfold update_handleConnected, bind, ret.
  destruct (connected w) as [x w']; cbn [fst snd].
  now destruct (connected_to_notehub (status_of_uint x)).
Qed.

(** C3.  A tick in [CONNECTED] stays in [CONNECTED] when the probe reports
    relay-connected and moves to [DISCONNECTED] when it does not; and any
    number of ticks during which the probe keeps reporting relay-connected
    leaves the state at [CONNECTED]. *)
Theorem update_handleConnected_steady (h : NotecardConnectionHandler) :
  (forall w : W,
     fst (update_handleConnected h w) =
       if connected_to_notehub (status_of_uint (fst (connected w)))
       then CONNECTED else DISCONNECTED) /\
  (forall (n : nat) (w : W),
     relay_connected_for n w = true ->
     fst (connected_ticks n h w) = CONNECTED).
Proof.
  split.
  - intros w; now rewrite update_handleConnected_eq.
  - induction n as [|n IH]; intros w; [reflexivity|].
    cbn [relay_connected_for connected_ticks]; unfold bind.
    rewrite update_handleConnected_eq.
    destruct (connected w) as [x w']; cbn [fst snd].
    destruct (connected_to_notehub (status_of_uint x)); [|discriminate].
    cbn [andb state_eqb]. apply IH.
Qed.

End Correctness.

Section Transitions.

Context {W : Type} `{World W}.

(** *** Leaving [INIT] *)

Lemma declareTemplate_result (file : string) (port : Z) (w : W) :
  fst (declareTemplate file port w) = INIT \/ fst (declareTemplate file port w) = ERROR.
Proof.
  unfold declareTemplate; run.
  destruct (host_alloc w) as [[|] w1]; [|now right].
  destruct (transaction _ w1) as [rsp w2].
  destruct (NoteResponseError rsp); [now right | now left].
Qed.

Lemma getDeviceUid_result (h : NotecardConnectionHandler) (w : W) :
  let '(r, h', w') := getDeviceUid h w in
  r = ERROR \/
  (r = CONNECTING /\ _keep_alive h = true /\ _conn_start_ms h' = millis w') \/
  (r = DISCONNECTED /\ _keep_alive h = false).
Proof.
  unfold getDeviceUid; run.
  destruct (host_alloc w) as [[|] w1]; [|now left].
  destruct (transaction _ w1) as [[r|] w2]; [|now left].
  destruct (NoteResponseError (Some r)); [now left|].
  cbn [_keep_alive set_dev_uid].
  destruct (_keep_alive h); [right; left | right; right]; repeat split.
Qed.

(** When the probe for a pending note finds none, on the transport the
    handler has just begun, [update_handleInit] stops at the first read of
    its unassigned local. *)
Lemma update_handleInit_no_note (h : NotecardConnectionHandler) (w : W) :
  let t := match _serial h with
           | Some serial => OverSerial serial (_uart_speed h)
           | None => OverI2C (_i2c_address h) (_i2c_max h) (_wire h)
           end in
  fst (getNote h false (notecard_begin t w)) = None ->
  update_handleInit h w = (None, h, snd (getNote h false (notecard_begin t w))).
Proof.
  intros t; subst t; unfold update_handleInit, begin, bind, ret.
  destruct (getNote h false _) as [note w1]; cbn [fst snd].
  now intros ->.
Qed.

(** Every outcome of [update_handleInit]: no defined state when the probe
    finds no note, and otherwise [ERROR], or [CONNECTING] under keep-alive
    with the clock just read, or [DISCONNECTED] without keep-alive. *)
Lemma update_handleInit_cases (h : NotecardConnectionHandler) (w : W) :
  let '(r, h', w') := update_handleInit h w in
  (r = None /\ h' = h) \/
  r = Some ERROR \/
  (r = Some CONNECTING /\ _keep_alive h = true /\ _conn_start_ms h' = millis w') \/
  (r = Some DISCONNECTED /\ _keep_alive h = false).
Proof.
  unfold update_handleInit, begin, bind, ret.
  destruct (getNote h false _) as [[note|] w1]; [|now left].
  cbn [state_eqb].
  destruct (configureConnection h true w1) as [[|] w2]; cbn [state_eqb];
    [|now right; left].
  pose proof (declareTemplate_result NOTEFILE_SSL_INBOUND
                NOTEFILE_INBOUND_LORA_PORT w2) as R3.
  destruct (declareTemplate _ _ w2) as [r3 w3]; cbn [fst] in R3.
  destruct R3 as [-> | ->]; cbn [state_eqb]; [|now right; left].
  pose proof (declareTemplate_result NOTEFILE_SSL_OUTBOUND
                NOTEFILE_OUTBOUND_LORA_PORT w3) as R4.
  destruct (declareTemplate _ _ w3) as [r4 w4]; cbn [fst] in R4.
  destruct R4 as [-> | ->]; cbn [state_eqb]; [|now right; left].
  pose proof (getDeviceUid_result h w4) as R5.
  destruct (getDeviceUid h w4) as [[r5 h5] w5].
  destruct R5 as [-> | [(-> & K & T) | (-> & K)]]; right; auto.
Qed.

(** *** Waiting in [CONNECTING] *)

Lemma elapsed_ms_exact (t start : Z) :
  0 <= start <= t -> t < 2 ^ 32 -> elapsed_ms t start = t - start.
Proof. intros R B; unfold elapsed_ms, wrap32; apply Z.mod_small; lia. Qed.

(** *** Rearming the interrupt *)

(** C10.  [armInterrupt] fails when the request cannot be allocated and
    when its file list cannot be allocated; once both exist the request is
    sent and the result is success whatever the response holds, a protocol
    error included. *)
Theorem armInterrupt_ignores_response (w : W) :
  let req := [("req", JString "card.attn"); ("mode", JString "rearm,files");
              ("files", JArray [NOTEFILE_SSL_INBOUND])] in
  armInterrupt w =
    (let (ok_req, w1) := host_alloc w in
     if ok_req then
       let (ok_files, w2) := host_alloc w1 in
       if ok_files then (true, snd (transaction req w2))
       else (false, w2)
     else (false, w1)).
Proof.
  unfold armInterrupt; run.
  destruct (host_alloc w) as [[|] w1]; [|reflexivity].
  destruct (host_alloc w1) as [[|] w2]; [|reflexivity].
  cbn.
  destruct (transaction _ w2) as [rsp w3]; cbn [snd].
  now destruct (NoteResponseError rsp).
Qed.

(** *** The stream interface *)

Lemma write_eq (h : NotecardConnectionHandler) (buf : list byte) (w : W) :
  write h buf w =
    (let (ok, w1) := host_alloc w in
     if ok then
       let (rsp, w2) :=
         transaction
           ([("req", JString "note.add"); ("file", JString NOTEFILE_SSL_OUTBOUND);
             ("payload", JBinary buf)]
            ++ (if _keep_alive h then [("sync", JBoolean true)] else []))%list w1 in
       (if NoteResponseError rsp then error_code NOTECARD_ERROR_GENERIC
        else error_code NOTECARD_ERROR_NONE, w2)
     else (error_code HOST_ERROR_OUT_OF_MEMORY, w1)).
Proof.
  unfold write; run.
  destruct (host_alloc w) as [[|] w1]; [|reflexivity].
  destruct (_keep_alive h); cbn;
    destruct (transaction _ w1) as [rsp w2];
    now destruct (NoteResponseError rsp).
Qed.

(** C9.  [write] returns the out-of-memory status when the request cannot
    be built; otherwise it sends one [note.add] with the payload for the
    outbound file and returns the generic error when the response carries
    a protocol error and success when it does not.  The request asks for
    an immediate sync exactly when keep-alive is active, and the three
    statuses are distinct. *)
Theorem write_status (h : NotecardConnectionHandler) (buf : list byte) (w : W) :
  let req := ([("req", JString "note.add"); ("file", JString NOTEFILE_SSL_OUTBOUND);
               ("payload", JBinary buf)]
              ++ (if _keep_alive h then [("sync", JBoolean true)] else []))%list in
  write h buf w =
    (let (ok, w1) := host_alloc w in
     if ok then
       let (rsp, w2) := transaction req w1 in
       (if NoteResponseError rsp then error_code NOTECARD_ERROR_GENERIC
        else error_code NOTECARD_ERROR_NONE, w2)
     else (error_code HOST_ERROR_OUT_OF_MEMORY, w1)) /\
  JGetBool (Some req) "sync" = _keep_alive h /\
  JGetBinaryFromObject req "payload" = Some buf /\
  error_code HOST_ERROR_OUT_OF_MEMORY <> error_code NOTECARD_ERROR_GENERIC /\
  error_code HOST_ERROR_OUT_OF_MEMORY <> error_code NOTECARD_ERROR_NONE /\
  error_code NOTECARD_ERROR_GENERIC <> error_code NOTECARD_ERROR_NONE.
Proof.
  intros req; subst req; split; [apply write_eq|].
  destruct (_keep_alive h); cbn; repeat split; discriminate.
Qed.

End Transitions.

Section Stream.

Context {W : Type} `{World W}.

(** *** The inbound buffer *)

Lemma buffer_ok_new_i2c project_uid en_hw_int keep_alive address max wire url :
  buffer_ok (new_i2c project_uid en_hw_int keep_alive address max wire url).
Proof. unfold buffer_ok; cbn; lia. Qed.

Lemma buffer_ok_new_serial project_uid serial speed en_hw_int keep_alive url :
  buffer_ok (new_serial project_uid serial speed en_hw_int keep_alive url).
Proof. unfold buffer_ok; cbn; lia. Qed.

Lemma buffer_ok_unread (h : NotecardConnectionHandler) :
  buffer_ok h ->
  _inbound_buffer_index h < _inbound_buffer_size h ->
  exists b, nth_error (_inbound_buffer h) (Z.to_nat (_inbound_buffer_index h)) = Some b.
Proof.
  intros (L & R & B) U.
  destruct (nth_error _ _) as [b|] eqn:E; [now exists b|].
  apply nth_error_None in E; lia.
Qed.

Lemma read_unread (h : NotecardConnectionHandler) (w : W) :
  buffer_ok h ->
  _inbound_buffer_index h < _inbound_buffer_size h ->
  exists b,
    nth_error (_inbound_buffer h) (Z.to_nat (_inbound_buffer_index h)) = Some b /\
    read h w =
      (Some (byte_to_int b,
             set_inbound_buffer_index (_inbound_buffer_index h + 1) h), w).
Proof.
  intros K U; destruct (buffer_ok_unread h K U) as [b E]; exists b; split; [exact E|].
  unfold read, ret. apply Z.ltb_lt in U as U'; rewrite U', E.
  destruct K as (_ & R & B).
  unfold wrap32; rewrite Z.mod_small by lia; reflexivity.
Qed.

Lemma read_exhausted (h : NotecardConnectionHandler) (w : W) :
  exhausted h ->
  read h w = (Some (error_code NOTECARD_ERROR_NO_DATA_AVAILABLE, h), w).
Proof.
  unfold exhausted, read, ret; intros E.
  apply Z.ltb_ge in E; now rewrite E.
Qed.

Lemma read_preserves_buffer_ok (h h' : NotecardConnectionHandler) (x : Z) (w : W) :
  buffer_ok h -> fst (read h w) = Some (x, h') -> buffer_ok h'.
Proof.
  intros K E.
  destruct (Z.lt_ge_cases (_inbound_buffer_index h) (_inbound_buffer_size h)) as [U|U].
  - destruct (read_unread h w K U) as (b & _ & R); rewrite R in E; inversion E; subst.
    destruct K as (L & R' & B); unfold buffer_ok; cbn; lia.
  - rewrite (read_exhausted h w U) in E; inversion E; now subst.
Qed.

Lemma available_preserves_buffer_ok (h : NotecardConnectionHandler) (w : W) :
  buffer_ok h ->
  (forall note bs,
     fst (getNote h true w) = Some note ->
     JGetBinaryFromObject note "payload" = Some bs ->
     Z.of_nat (List.length bs) < 2 ^ 32) ->
  buffer_ok (snd (fst (available h w))).
Proof.
  intros K P; unfold available, bind, ret.
  destruct (_ <? _); cbn [negb]; [exact K|].
  destruct (getNote h true w) as [[note|] w1]; cbn [fst snd] in *; [|exact K].
  destruct (JGetBinaryFromObject note "payload") as [bs|] eqn:E.
  - specialize (P note bs eq_refl E).
    unfold buffer_ok, wrap32; cbn. rewrite Z.mod_small by lia. lia.
  - destruct K as (L & R & B); unfold buffer_ok; cbn; lia.
Qed.

(** C7.  On an exhausted buffer [read] returns the no-data sentinel and
    leaves the handler, cursor included, as it was; below the size of the
    buffer it returns the byte under the cursor, found within the buffer,
    and moves the cursor by one.  In both cases the world is returned
    untouched: no transaction, so no dequeue.  No byte equals the
    sentinel. *)
Theorem read_cursor (h : NotecardConnectionHandler) (w : W) :
  (exhausted h ->
   read h w = (Some (error_code NOTECARD_ERROR_NO_DATA_AVAILABLE, h), w)) /\
  (buffer_ok h ->
   _inbound_buffer_index h < _inbound_buffer_size h ->
   exists b,
     nth_error (_inbound_buffer h) (Z.to_nat (_inbound_buffer_index h)) = Some b /\
     read h w =
       (Some (byte_to_int b,
              set_inbound_buffer_index (_inbound_buffer_index h + 1) h), w)) /\
  (forall b, byte_to_int b <> error_code NOTECARD_ERROR_NO_DATA_AVAILABLE).
Proof.
  split; [apply read_exhausted | split; [apply read_unread|]].
  intros b; pose proof (byte_to_int_range b); cbn; lia.
Qed.

(** *** Reloading the buffer *)

Lemma getNote_error (h : NotecardConnectionHandler) (pop : bool) (w w1 w2 : W)
    (rsp : option J) :
  let req := ([("req", JString "note.get"); ("file", JString NOTEFILE_SSL_INBOUND)]
              ++ (if pop then [("delete", JBoolean true)] else []))%list in
  host_alloc w = (true, w1) ->
  transaction req w1 = (rsp, w2) ->
  NoteResponseError rsp = true ->
  fst (getNote h pop w) = None.
Proof.
  intros req A T E; subst req; unfold getNote; run.
  rewrite A. destruct pop; cbn in T |- *; rewrite T, E;
    now destruct (if NoteErrorContains _ _ then _ else _) as [m].
Qed.

Lemma token_is_error (rsp : option J) (token : string) :
  token <> EmptyString ->
  NoteErrorContains (JGetString rsp "err") token = true ->
  NoteResponseError rsp = true.
Proof.
  unfold NoteErrorContains, NoteResponseError; intros N C.
  destruct (JGetString rsp "err"); [|reflexivity].
  destruct token; [contradiction | discriminate].
Qed.

Lemma available_no_note (h : NotecardConnectionHandler) (w : W) :
  exhausted h ->
  fst (getNote h true w) = None ->
  available h w = (false, h, snd (getNote h true w)).
Proof.
  unfold exhausted, available, bind, ret; intros X N.
  apply Z.ltb_ge in X; rewrite X; cbn [negb].
  destruct (getNote h true w) as [note w1]; cbn [fst snd] in *; now subst.
Qed.

Lemma available_unread (h : NotecardConnectionHandler) (w : W) :
  _inbound_buffer_index h < _inbound_buffer_size h ->
  available h w = (true, h, w).
Proof.
  intros U; unfold available, ret.
  apply Z.ltb_lt in U; now rewrite U.
Qed.

(** C8.  With no unread byte left, [available] returns false and leaves
    the handler (buffer, size and cursor) as it was whenever the dequeue
    yields no note, which is the case when the inbound queue answers by
    the queue-empty error; with an unread byte left it returns true and
    changes neither the handler nor the world, so that no dequeue is
    attempted. *)
Theorem available_frame (h : NotecardConnectionHandler) (w : W) :
  (exhausted h ->
   fst (getNote h true w) = None ->
   available h w = (false, h, snd (getNote h true w))) /\
  (exhausted h ->
   forall (w1 w2 : W) (rsp : option J),
     host_alloc w = (true, w1) ->
     transaction [("req", JString "note.get"); ("file", JString NOTEFILE_SSL_INBOUND);
                  ("delete", JBoolean true)] w1 = (rsp, w2) ->
     NoteErrorContains (JGetString rsp "err") "{note-noexist}" = true ->
     fst (available h w) = (false, h)) /\
  (_inbound_buffer_index h < _inbound_buffer_size h ->
   available h w = (true, h, w)).
Proof.
  split; [apply available_no_note | split].
  - intros X w1 w2 rsp A T C.
    rewrite available_no_note; trivial.
    apply (getNote_error h true w w1 w2 rsp A T).
    apply (token_is_error rsp "{note-noexist}"); [discriminate | exact C].
  - apply available_unread.
Qed.

End Stream.

(** ** The handler on the loop-back Notecard *)

Section Buffered.

Context {W : Type} `{World W}.


End Buffered.

Lemma loopback_write (h : NotecardConnectionHandler) (bs : list byte)
    (s : Loopback.Notecard) :
  write h bs s =
    (error_code NOTECARD_ERROR_NONE,
     Loopback.mk (Loopback.outbound s ++ [bs]) (Loopback.inbound s) (Loopback.clock s)).
Proof.
  rewrite write_eq.
  destruct (_keep_alive h); reflexivity.
Qed.

Lemma loopback_dequeue (h : NotecardConnectionHandler) (bs : list byte)
    (out rest : list (list byte)) (clock : Z) :
  exhausted h ->
  available h (Loopback.mk out (bs :: rest) clock) =
    (true,
     set_inbound_buffer_index 0
       (set_inbound_buffer bs (wrap32 (Z.of_nat (List.length bs))) h),
     Loopback.mk out rest clock).
Proof.
  unfold exhausted, available; intros X.
  apply Z.ltb_ge in X; rewrite X; reflexivity.
Qed.


Lemma loopback_getNote_empty (h : NotecardConnectionHandler) (pop : bool)
    (out : list (list byte)) (clock : Z) :
  getNote h pop (Loopback.mk out [] clock) = (None, Loopback.mk out [] clock).
Proof.
  unfold getNote; destruct (_en_hw_int h), pop; vm_compute; reflexivity.
Qed.

Lemma loopback_available_empty (h : NotecardConnectionHandler) (s : Loopback.Notecard) :
  exhausted h -> Loopback.inbound s = [] -> available h s = (false, h, s).
Proof.
  unfold exhausted, available, bind, ret; intros X I; destruct s as [out inb clock].
  cbn [Loopback.inbound] in I; subst inb.
  apply Z.ltb_ge in X; rewrite X; cbn [negb].
  now rewrite loopback_getNote_empty.
Qed.

(** The consumer loop on the bytes left in the buffer, with nothing queued
    on the card: it reads them in order and then finds nothing available. *)
Lemma drain_step (fuel : nat) (h : NotecardConnectionHandler) (s : Loopback.Notecard) :
  drain (S fuel) h s =
    (let '(a, h1, s1) := available h s in
     if a : bool then
       match read h1 s1 with
       | (None, s2) => (None, s2)
       | (Some (x, h2), s2) =>
           let (rest, s3) := drain fuel h2 s2 in
           (match rest with
            | Some (l, h3) => Some (x :: l, h3)
            | None => None
            end, s3)
       end
     else (Some ([], h1), s1)).
Proof.
  cbn [drain]; unfold bind, ret.
  destruct (available h s) as [[[|] h1] s1]; [|reflexivity].
  destruct (read h1 s1) as [[[x h2]|] s2]; reflexivity.
Qed.

Lemma drain_buffered (rest pre : list byte) (h : NotecardConnectionHandler)
    (s : Loopback.Notecard) :
  Loopback.inbound s = [] ->
  _inbound_buffer h = (pre ++ rest)%list ->
  _inbound_buffer_index h = Z.of_nat (List.length pre) ->
  _inbound_buffer_size h = Z.of_nat (List.length (pre ++ rest)) ->
  _inbound_buffer_size h < 2 ^ 32 ->
  drain (S (List.length rest)) h s =
    (Some (map byte_to_int rest,
           set_inbound_buffer_index (_inbound_buffer_size h) h), s).
Proof.
  intros Q; revert pre h; induction rest as [|b rest IH]; intros pre h B I Sz R;
    rewrite drain_step.
  - rewrite app_nil_r in Sz.
    rewrite loopback_available_empty; [|unfold exhausted; lia|exact Q].
    cbn [map]; do 3 f_equal.
    destruct h; unfold set_inbound_buffer_index; cbn in *; congruence.
  - assert (K : buffer_ok h).
    { unfold buffer_ok; rewrite B, I; rewrite Sz in R |- *.
      rewrite !length_app in *; cbn [List.length] in *; lia. }
    assert (U : _inbound_buffer_index h < _inbound_buffer_size h).
    { rewrite I, Sz, length_app; cbn [List.length]; lia. }
    rewrite (available_unread h s U).
    destruct (read_unread h s K U) as (c & N & E); rewrite E.
    rewrite B, I, Nat2Z.id, nth_error_app2, Nat.sub_diag in N by lia.
    cbn in N; inversion N; subst c.
    cbn [List.length]; rewrite (IH (pre ++ [b])%list).
    + destruct h; reflexivity.
    + destruct h; unfold set_inbound_buffer_index; cbn in *; now rewrite <- app_assoc.
    + destruct h; unfold set_inbound_buffer_index; cbn in *;
        rewrite length_app; cbn [List.length]; lia.
    + destruct h; unfold set_inbound_buffer_index; cbn in *;
        rewrite <- app_assoc; exact Sz.
    + destruct h; unfold set_inbound_buffer_index; cbn in *; exact R.
Qed.

(** The round trip through the consumer loop, for a sequence that has at
    least one byte: the loop stops by itself after the last byte. *)
Lemma drain_roundtrip (b : byte) (bs : list byte) (h : NotecardConnectionHandler)
    (s : Loopback.Notecard) :
  exhausted h ->
  Loopback.outbound s = [] ->
  Loopback.inbound s = [] ->
  Z.of_nat (List.length (b :: bs)) < 2 ^ 32 ->
  exists h',
    drain (S (List.length (b :: bs))) h (Loopback.relay (snd (write h (b :: bs) s))) =
      (Some (map byte_to_int (b :: bs), h'), Loopback.mk [] [] (Loopback.clock s)).
Proof.
  intros X O I B; rewrite loopback_write; cbn [fst snd].
  unfold Loopback.relay; cbn [Loopback.inbound Loopback.outbound Loopback.clock].
  rewrite O, I; cbn [app].
  rewrite drain_step, loopback_dequeue by exact X.
  set (h1 := set_inbound_buffer_index 0 _).
  assert (S1 : _inbound_buffer_size h1 = Z.of_nat (List.length (b :: bs))).
  { subst h1; fields. unfold wrap32; apply Z.mod_small; lia. }
  assert (K : buffer_ok h1).
  { unfold buffer_ok; rewrite S1; subst h1; fields; lia. }
  assert (U : _inbound_buffer_index h1 < _inbound_buffer_size h1).
  { rewrite S1; subst h1; fields; cbn [List.length]; lia. }
  destruct (read_unread h1 (Loopback.mk [] [] (Loopback.clock s)) K U) as (c & N & E).
  rewrite E. assert (c = b) by (subst h1; cbn in N; congruence); subst c.
  set (h2 := set_inbound_buffer_index _ _).
  assert (S2 : _inbound_buffer_size h2 = Z.of_nat (List.length (b :: bs))).
  { subst h2; rewrite <- S1; reflexivity. }
  cbn [List.length]; rewrite (drain_buffered bs [b] h2).
  - eexists; reflexivity.
  - reflexivity.
  - reflexivity.
  - reflexivity.
  - exact S2.
  - rewrite S2; exact B.
Qed.

(** A note with an empty payload, where the library hands the empty
    payload over: [available] adopts it and returns true, and the [read]
    that follows returns the no-data sentinel. *)
Lemma drain_empty_payload (h : NotecardConnectionHandler) (s : Loopback.Notecard) :
  exhausted h ->
  Loopback.outbound s = [] ->
  Loopback.inbound s = [] ->
  fst (drain 2 h (Loopback.relay (snd (write h [] s)))) =
    Some ([error_code NOTECARD_ERROR_NO_DATA_AVAILABLE],
          set_inbound_buffer_index 0 (set_inbound_buffer [] 0 h)).
Proof.
  intros X O I; rewrite loopback_write; cbn [fst snd].
  unfold Loopback.relay; cbn [Loopback.inbound Loopback.outbound Loopback.clock].
  rewrite O, I; cbn [app].
  cbn [drain]; unfold bind.
  rewrite loopback_dequeue by exact X.
  change (wrap32 (Z.of_nat (List.length (@nil byte)))) with 0.
  rewrite read_exhausted by (unfold exhausted; fields; lia).
  rewrite loopback_available_empty; [reflexivity | unfold exhausted; fields; lia | reflexivity].
Qed.

(** C1 (where the code departs from it).  With nothing queued in the
    inbound file the probe of [update_handleInit] finds no note, the local
    [result] is never assigned before it is compared, and the handler
    yields no defined next state: none of [ERROR], [CONNECTING] and
    [DISCONNECTED], with or without keep-alive, and no later step of the
    sequence is run. *)
Theorem update_handleInit_empty_queue (h : NotecardConnectionHandler)
    (out : list (list byte)) (clock : Z) :
  update_handleInit h (Loopback.mk out [] clock) = (None, h, Loopback.mk out [] clock).
Proof.
  unfold update_handleInit, begin, bind, ret.
  change (notecard_begin _ (Loopback.mk out [] clock)) with (Loopback.mk out [] clock).
  now rewrite loopback_getNote_empty.
Qed.

(** With a note waiting and every transaction answered without error the
    sample handler, which has keep-alive, moves to [CONNECTING]. *)
Lemma update_handleInit_pending :
  fst (fst (update_handleInit Samples.handler Samples.pending)) = Some CONNECTING.
Proof. reflexivity. Qed.

(** *** The restart after a connection timeout *)

Lemma initSteps_skip {W : Type} `{World W} (g : NetworkConnectionState)
    (h : NotecardConnectionHandler) (w : W) :
  g <> INIT -> initSteps g h w = (g, h, w).
Proof. intros N; destruct g; try reflexivity; contradiction. Qed.

(** Where the probe finds a note the content of the stack slot does not
    matter, and the two embeddings of [update_handleInit] agree. *)
Lemma update_handleInit_from_found {W : Type} `{World W} (g : NetworkConnectionState)
    (h : NotecardConnectionHandler) (w : W) :
  let w0 := notecard_begin
              (match _serial h with
               | Some serial => OverSerial serial (_uart_speed h)
               | None => OverI2C (_i2c_address h) (_i2c_max h) (_wire h)
               end) w in
  fst (getNote h false w0) <> None ->
  update_handleInit_from g h w = initSteps INIT h (snd (getNote h false w0)) /\
  update_handleInit h w =
    (Some (fst (fst (update_handleInit_from g h w))),
     snd (fst (update_handleInit_from g h w)),
     snd (update_handleInit_from g h w)).
Proof.
  intros w0; subst w0.
  unfold update_handleInit_from, update_handleInit, initSteps, begin, bind, ret.
  destruct (getNote h false _) as [[note|] w1]; cbn [fst snd]; [intros _|contradiction].
  split; [reflexivity|]. cbn [state_eqb].
  destruct (configureConnection h true w1) as [[|] w2]; cbn [state_eqb]; [|reflexivity].
  destruct (declareTemplate _ _ w2) as [r3 w3]; destruct r3; try reflexivity.
  destruct (declareTemplate _ _ w3) as [r4 w4]; destruct r4; try reflexivity.
  now destruct (getDeviceUid h w4) as [[r5 h5] w5].
Qed.

(** Where the probe finds no note, the handler returns what the stack
    slot held, unless that happens to be [INIT]. *)
Lemma update_handleInit_from_no_note {W : Type} `{World W} (g : NetworkConnectionState)
    (h : NotecardConnectionHandler) (w : W) :
  let w0 := notecard_begin
              (match _serial h with
               | Some serial => OverSerial serial (_uart_speed h)
               | None => OverI2C (_i2c_address h) (_i2c_max h) (_wire h)
               end) w in
  fst (getNote h false w0) = None ->
  g <> INIT ->
  update_handleInit_from g h w = (g, h, snd (getNote h false w0)).
Proof.
  intros w0; subst w0; unfold update_handleInit_from, begin, bind, ret.
  destruct (getNote h false _) as [note w1]; cbn [fst snd]; intros -> N.
  now apply initSteps_skip.
Qed.

(** C2 (where the code departs from it).  On the loop-back Notecard, whose
    status answer never reports the relay connected, a tick in
    [CONNECTING] moves to [INIT] once the time elapsed since the start
    timestamp exceeds the timeout and stays in [CONNECTING] before, as the
    claim says.  The restart that follows does not record a fresh start
    timestamp: with nothing queued in the inbound file the probe of
    [update_handleInit] finds no note and the function returns its local
    as it found it; when the stack slot holds [CONNECTING] the handler is
    back in [CONNECTING] unchanged, with the start timestamp of the
    attempt that timed out, and the next tick times out again at once. *)
Theorem update_handleInit_restart_keeps_timestamp (T : Z)
    (h : NotecardConnectionHandler) (out : list (list byte)) (clock : Z) :
  let s := Loopback.mk out [] clock in
  update_handleConnecting T h s =
    (if elapsed_ms clock (_conn_start_ms h) >? T then INIT else CONNECTING, s) /\
  update_handleInit_from CONNECTING h s = (CONNECTING, h, s) /\
  update_handleConnecting T (snd (fst (update_handleInit_from CONNECTING h s))) s =
    update_handleConnecting T h s.
Proof.
  intros s; subst s.
  assert (R : update_handleInit_from CONNECTING h (Loopback.mk out [] clock) =
              (CONNECTING, h, Loopback.mk out [] clock)).
  { unfold update_handleInit_from, begin, bind, ret.
    change (notecard_begin _ (Loopback.mk out [] clock)) with (Loopback.mk out [] clock).
    now rewrite loopback_getNote_empty. }
  split; [|split; [exact R | now rewrite R]].
  unfold update_handleConnecting, bind, ret, now.
  assert (C : connected (Loopback.mk out [] clock) = (0, Loopback.mk out [] clock))
    by reflexivity.
  rewrite C; cbn [status_of_uint connected_to_notehub to_bool negb Z.land Z.eqb].
  cbn [millis Loopback.world Loopback.clock].
  now destruct (_ >? _).
Qed.

(** The same restart at the sample handler: the clock reads 4242, the
    handler is back in [CONNECTING], and its start timestamp is still 0. *)
Lemma restart_at_sample :
  update_handleInit_from CONNECTING Samples.handler Samples.idle =
    (CONNECTING, Samples.handler, Samples.idle) /\
  _conn_start_ms Samples.handler = 0 /\
  millis Samples.idle = 4242.
Proof. repeat split. Qed.

(** ** The theorems at the sample handlers and worlds *)

Lemma update_handleConnected_steady_witness :
  fst (connected_ticks 3 Samples.handler
         (Samples.scripted []
            [Some Samples.relay_up; Some Samples.relay_up; Some Samples.relay_up] 0))
    = CONNECTED.
Proof.
  apply (proj2 (update_handleConnected_steady Samples.handler)); reflexivity.
Defined.


Lemma connected_decodes_response_witness :
  let st := status_of_uint
              (fst (connected (Samples.scripted [] [Some Samples.transport_only] 0))) in
  transport_connected st = true /\ connected_to_notehub st = false.
Proof.
  destruct (connected_decodes_response
              (Samples.scripted [] [Some Samples.transport_only] 0)
              Samples.transport_only) as (_ & _ & _ & _ & P).
  - reflexivity.
  - reflexivity.
  - apply P.
    + exists "{connected-closed} ", EmptyString; reflexivity.
    + reflexivity.
Defined.

Lemma connected_error_flags_witness :
  let st := status_of_uint (fst (connected (Samples.scripted [false] [] 0))) in
  host_error st = true /\ notecard_error st = false /\
  transport_connected st = false /\ connected_to_notehub st = false.
Proof.
  apply (proj1 (connected_error_flags (Samples.scripted [false] [] 0))).
  reflexivity.
Defined.

Lemma read_cursor_witness :
  read Samples.handler Samples.idle =
    (Some (error_code NOTECARD_ERROR_NO_DATA_AVAILABLE, Samples.handler), Samples.idle) /\
  exists b,
    nth_error (_inbound_buffer Samples.reading) 1 = Some b /\
    read Samples.reading Samples.idle =
      (Some (byte_to_int b, set_inbound_buffer_index 2 Samples.reading), Samples.idle).
Proof.
  split.
  - apply (proj1 (read_cursor Samples.handler Samples.idle)).
    unfold exhausted; simpl; lia.
  - apply (proj1 (proj2 (read_cursor Samples.reading Samples.idle))).
    + unfold buffer_ok; simpl; lia.
    + simpl; lia.
Defined.

Lemma available_frame_witness :
  available Samples.handler Samples.idle =
    (false, Samples.handler, snd (getNote Samples.handler true Samples.idle)) /\
  fst (available Samples.handler Samples.idle) = (false, Samples.handler) /\
  available Samples.reading Samples.pending = (true, Samples.reading, Samples.pending).
Proof.
  destruct (available_frame Samples.handler Samples.idle) as (A & B & _).
  destruct (available_frame Samples.reading Samples.pending) as (_ & _ & C).
  split; [|split].
  - apply A; [unfold exhausted; simpl; lia | reflexivity].
  - apply (B ltac:(unfold exhausted; simpl; lia) Samples.idle Samples.idle
             (Some (Loopback.error_response "no notes available in queue {note-noexist}")));
      reflexivity.
  - apply C; simpl; lia.
Defined.

(** * More of the handler *)

(** ** The status byte, both ways *)

Lemma status_of_uint_low (x : Z) : status_of_uint x = status_of_uint (Z.land x 15).
Proof.
  unfold status_of_uint, to_nibble; f_equal;
    try (rewrite <- (Z.land_assoc x 15); reflexivity).
  rewrite <- (Z.land_assoc x 240 15), <- (Z.land_assoc (Z.land x 15) 240 15).
  change (Z.land 240 15) with 0; now rewrite !Z.land_0_r.
Qed.

Lemma land_15_cases (x : Z) :
  exists n : nat, (n < 16)%nat /\ Z.land x 15 = Z.of_nat n.
Proof.
  change 15 with (Z.ones 4); rewrite Z.land_ones by lia.
  pose proof (Z.mod_pos_bound x (2 ^ 4) ltac:(lia)) as B.
  exists (Z.to_nat (x mod 2 ^ 4)); split; lia.
Qed.

(** X1.  The converting constructor reads the low four bits of the integer
    only: the reserved field it builds is always zero, whatever the high
    bits are, and converting back gives the low four bits.  From a struct
    to the integer and back, the four flags survive and the reserved
    field is dropped. *)
Theorem status_uint_conversions :
  (forall x : Z, reserved (status_of_uint x) = 0) /\
  (forall x : Z, status_to_uint (status_of_uint x) = Z.land x 15) /\
  (forall s : NotecardConnectionStatus,
     0 <= reserved s < 16 ->
     status_of_uint (status_to_uint s) =
       mkStatus (transport_connected s) (connected_to_notehub s)
                (notecard_error s) (host_error s) 0).
Proof.
  split; [|split].
  - intros x; unfold status_of_uint, to_nibble; cbn [reserved].
    rewrite <- Z.land_assoc; apply Z.land_0_r.
  - intros x; rewrite status_of_uint_low.
    destruct (land_15_cases x) as (n & B & ->).
    do 16 (destruct n as [|n]; [reflexivity|]); lia.
  - intros [t c e o r] R; cbn [reserved transport_connected connected_to_notehub
                               notecard_error host_error] in *.
    assert (N : exists n : nat, (n < 16)%nat /\ r = Z.of_nat n)
      by (exists (Z.to_nat r); lia).
    destruct N as (n & B & ->).
    do 16 (destruct n as [|n]; [destruct t, c, e, o; reflexivity|]); lia.
Qed.

Lemma status_uint_conversions_witness :
  status_of_uint (status_to_uint (mkStatus true false true false 9)) =
    mkStatus true false true false 0.
Proof.
  apply (proj2 (proj2 status_uint_conversions) (mkStatus true false true false 9)).
  simpl; lia.
Defined.

Section MoreProbe.

Context {W : Type} `{World W}.

(** ** The probe and the handlers that use it *)

(** X3.  When the status query is answered by a protocol error, the decoded
    status has [notecard_error] alone: no host error and neither
    connectivity flag.  And for every answer, a connectivity flag that is
    set comes with both error flags clear. *)
Theorem connected_flags_meaningful (w : W) :
  let st := status_of_uint (fst (connected w)) in
  (forall r : J,
     fst (hub_status_response w) = Some r ->
     NoteResponseError (Some r) = true ->
     st = mkStatus false false true false 0) /\
  (transport_connected st || connected_to_notehub st = true ->
   notecard_error st = false /\ host_error st = false).
Proof.
  intros st; subst st; rewrite connected_status.
  destruct (fst (hub_status_response w)) as [r|].
  - split.
    + intros r' E; inversion E; subst r'; now intros ->.
    + destruct (NoteResponseError (Some r)); cbn; [discriminate | now split].
  - split; [discriminate | cbn; discriminate].
Qed.

Lemma update_handleConnecting_eq (T : Z) (h : NotecardConnectionHandler) (w : W) :
  update_handleConnecting T h w =
    (if connected_to_notehub (status_of_uint (fst (connected w))) then CONNECTED
     else if elapsed_ms (millis (snd (connected w))) (_conn_start_ms h) >? T
          then INIT else CONNECTING,
     snd (connected w)).
Proof.
  unfold update_handleConnecting; run.
  destruct (connected w) as [x w1]; cbn [fst snd].
  destruct (connected_to_notehub (status_of_uint x)); cbn [negb]; [reflexivity|].
  now destruct (_ >? _).
Qed.

Lemma failed_probe_not_connected (w : W) :
  (fst (hub_status_response w) = None \/
   NoteResponseError (fst (hub_status_response w)) = true) ->
  connected_to_notehub (status_of_uint (fst (connected w))) = false.
Proof.
  rewrite connected_status.
  destruct (fst (hub_status_response w)) as [r|]; intros [E|E];
    try discriminate; try reflexivity.
  now rewrite E.
Qed.

(** X4.  A status probe that fails, by getting no answer or by an answer that
    carries a protocol error, counts as relay-disconnected: a tick in
    [CONNECTED] moves to [DISCONNECTED], and a tick in [CONNECTING] never
    moves to [CONNECTED]. *)
Theorem failed_probe_transitions (T : Z) (h : NotecardConnectionHandler) (w : W) :
  (fst (hub_status_response w) = None \/
   NoteResponseError (fst (hub_status_response w)) = true) ->
  fst (update_handleConnected h w) = DISCONNECTED /\
  fst (update_handleConnecting T h w) <> CONNECTED.
Proof.
  intros F; apply failed_probe_not_connected in F.
  rewrite update_handleConnected_eq, update_handleConnecting_eq, F; cbn [fst].
  split; [reflexivity | now destruct (_ >? _)].
Qed.

(** ** The time query *)

(** X5.  [getTime] returns zero without a transaction when the request cannot
    be built, and zero when the transaction fails or its answer carries a
    protocol error; an answer without error gives its [time] number,
    unchanged when the number fits 32 bits, and zero when the answer has
    no such number.  The result always fits 32 bits. *)
Theorem getTime_result (w : W) :
  (fst (host_alloc w) = false -> getTime w = (0, snd (host_alloc w))) /\
  (forall (w1 w2 : W) (rsp : option J),
     host_alloc w = (true, w1) ->
     transaction [("req", JString "card.time")] w1 = (rsp, w2) ->
     (rsp = None \/ NoteResponseError rsp = true -> getTime w = (0, w2)) /\
     (rsp <> None -> NoteResponseError rsp = false ->
      (0 <= JGetInt rsp "time" < 2 ^ 32 -> getTime w = (JGetInt rsp "time", w2)) /\
      (forall r, rsp = Some r -> JGetObjectItem r "time" = None ->
                 getTime w = (0, w2)))) /\
  0 <= fst (getTime w) < 2 ^ 32.
Proof.
  unfold getTime; run; split; [|split].
  - destruct (host_alloc w) as [[|] w1]; [discriminate | reflexivity].
  - intros w1 w2 rsp A T; rewrite A; cbn in T |- *; rewrite T; split.
    + intros [-> | E]; [reflexivity|].
      destruct rsp; [now rewrite E | reflexivity].
    + intros N E; destruct rsp as [r|]; [|contradiction]. rewrite E; split.
      * intros R; unfold wrap32; now rewrite Z.mod_small.
      * intros r' R M; inversion R; subst r'.
        unfold JGetInt; now rewrite M.
  - destruct (host_alloc w) as [[|] w1]; [|cbn; lia].
    destruct (transaction _ w1) as [[r|] w2]; [|cbn; lia].
    destruct (NoteResponseError (Some r)); cbn [fst]; [lia|].
    apply Z.mod_pos_bound; lia.
Qed.

End MoreProbe.

Section MoreStates.

Context {W : Type} `{World W}.

(** ** Reconfiguring the hub *)

(** X6.  [configureConnection] sends one [hub.set] that carries the URL and the
    product of the handler, with continuous mode, a 15 minute inbound
    interval and an immediate sync to connect, and with periodic mode, a
    1440 minute inbound interval, no outbound sync and no voltage-variable
    intervals to disconnect.  It fails without a transaction when the
    request cannot be built, and otherwise succeeds exactly when the
    response carries no protocol error. *)
Theorem configureConnection_request (h : NotecardConnectionHandler) (connect : bool)
    (w : W) :
  let req :=
    ([("req", JString "hub.set"); ("host", JString (_notehub_url h));
      ("product", JString (_project_uid h))]
     ++ (if connect then
           [("mode", JString "continuous"); ("inbound", JNumber 15);
            ("sync", JBoolean true)]
         else
           [("mode", JString "periodic"); ("inbound", JNumber 1440);
            ("outbound", JNumber (-1)); ("vinbound", JString "-");
            ("voutbound", JString "-")]))%list in
  configureConnection h connect w =
    (let (ok, w1) := host_alloc w in
     if ok then
       let (rsp, w2) := transaction req w1 in
       (negb (NoteResponseError rsp), w2)
     else (false, w1)).
Proof.
  unfold configureConnection; run.
  destruct (host_alloc w) as [[|] w1]; [|reflexivity].
  destruct connect; cbn;
    destruct (transaction _ w1) as [rsp w2];
    now destruct (NoteResponseError rsp).
Qed.

(** ** Leaving [DISCONNECTED] *)

(** X7.  With keep-alive a tick in [DISCONNECTED] restarts at [INIT] and does
    not touch the Notecard; without keep-alive it reconfigures the hub for
    disconnection and moves to [CLOSED] when that succeeds and to [ERROR]
    when it fails. *)
Theorem update_handleDisconnected_next (h : NotecardConnectionHandler) (w : W) :
  (_keep_alive h = true -> update_handleDisconnected h w = (INIT, w)) /\
  (_keep_alive h = false ->
   update_handleDisconnected h w =
     (if fst (configureConnection h false w) then CLOSED else ERROR,
      snd (configureConnection h false w))).
Proof.
  unfold update_handleDisconnected, bind, ret; split; intros ->; [reflexivity|].
  now destruct (configureConnection h false w) as [[|] w1].
Qed.

(** ** States no handler produces *)

(** X8.  The handlers of [CONNECTING], [CONNECTED], [DISCONNECTING] and
    [DISCONNECTED] never yield [DISCONNECTING], and none of the first
    three yields [CLOSED].  [update_handleInit] yields neither of the two
    once its probe has found a note, whatever its local held before; with
    no note it returns that local, so that nothing of the kind holds
    there. *)
Theorem handlers_never_disconnecting (T : Z) (h : NotecardConnectionHandler) (w : W) :
  let w0 := notecard_begin
              (match _serial h with
               | Some serial => OverSerial serial (_uart_speed h)
               | None => OverI2C (_i2c_address h) (_i2c_max h) (_wire h)
               end) w in
  (forall g : NetworkConnectionState,
     fst (getNote h false w0) <> None ->
     fst (fst (update_handleInit_from g h w)) <> DISCONNECTING /\
     fst (fst (update_handleInit_from g h w)) <> CLOSED) /\
  (fst (update_handleConnecting T h w) <> DISCONNECTING /\
   fst (update_handleConnected h w) <> DISCONNECTING /\
   fst (update_handleDisconnecting h w) <> DISCONNECTING /\
   fst (update_handleDisconnected h w) <> DISCONNECTING) /\
  (fst (update_handleConnecting T h w) <> CLOSED /\
   fst (update_handleConnected h w) <> CLOSED /\
   fst (update_handleDisconnecting h w) <> CLOSED).
Proof.
  intros w0; split; [|split].
  - intros g F.
    destruct (update_handleInit_from_found g h w F) as [_ E].
    pose proof (update_handleInit_cases h w) as C; rewrite E in C.
    destruct (fst (fst (update_handleInit_from g h w)));
      destruct C as [[C _] | [C | [(C & _) | (C & _)]]];
      split; discriminate.
  - rewrite update_handleConnecting_eq, update_handleConnected_eq; cbn [fst].
    repeat split.
    + destruct (connected_to_notehub _); [discriminate|].
      destruct (_ >? _); discriminate.
    + destruct (connected_to_notehub _); discriminate.
    + discriminate.
    + unfold update_handleDisconnected, bind, ret.
      destruct (_keep_alive h); [discriminate|].
      now destruct (configureConnection h false w) as [[|] w1].
  - rewrite update_handleConnecting_eq, update_handleConnected_eq; cbn [fst].
    repeat split.
    + destruct (connected_to_notehub _); [discriminate|].
      destruct (_ >? _); discriminate.
    + destruct (connected_to_notehub _); discriminate.
    + discriminate.
Qed.

(** ** Fetching a note *)

Lemma getNote_eq (h : NotecardConnectionHandler) (pop : bool) (w : W) :
  getNote h pop w =
    (let (ok, w1) := host_alloc w in
     if ok then
       let (note, w2) :=
         transaction
           ([("req", JString "note.get"); ("file", JString NOTEFILE_SSL_INBOUND)]
            ++ (if pop then [("delete", JBoolean true)] else []))%list w1 in
       if NoteResponseError note then
         (None,
          if NoteErrorContains (JGetString note "err") "{note-noexist}"
             && _en_hw_int h
          then snd (armInterrupt w2) else w2)
       else (note, w2)
     else (None, w1)).
Proof.
  unfold getNote; run.
  destruct (host_alloc w) as [[|] w1]; [|reflexivity].
  destruct pop; cbn;
    destruct (transaction _ w1) as [note w2];
    destruct (NoteResponseError note); trivial;
    destruct (NoteErrorContains _ _), (_en_hw_int h); cbn [andb]; trivial;
    now destruct (armInterrupt w2).
Qed.

(** X9.  A note that [getNote] returns carries no protocol error.  The request
    asks to delete the note exactly when [pop] is set.  The interrupt is
    rearmed only after the queue-empty error and only when the hardware
    interrupt is enabled: in every other case the world is the one the
    single [note.get] transaction left. *)
Theorem getNote_rearms_on_empty_only (h : NotecardConnectionHandler) (pop : bool)
    (w w1 w2 : W) (rsp : option J) :
  let req := ([("req", JString "note.get"); ("file", JString NOTEFILE_SSL_INBOUND)]
              ++ (if pop then [("delete", JBoolean true)] else []))%list in
  host_alloc w = (true, w1) ->
  transaction req w1 = (rsp, w2) ->
  (forall note, fst (getNote h pop w) = Some note ->
                NoteResponseError (Some note) = false) /\
  JGetBool (Some req) "delete" = pop /\
  (NoteErrorContains (JGetString rsp "err") "{note-noexist}" = true ->
   _en_hw_int h = true ->
   getNote h pop w = (None, snd (armInterrupt w2))) /\
  (NoteErrorContains (JGetString rsp "err") "{note-noexist}" = false \/
   _en_hw_int h = false ->
   getNote h pop w = (if NoteResponseError rsp then None else rsp, w2)).
Proof.
  intros req A T; subst req; rewrite getNote_eq, A, T.
  split; [|split; [|split]].
  - destruct (NoteResponseError rsp) eqn:E; cbn [fst]; [discriminate|].
    now intros note ->.
  - now destruct pop.
  - intros C I; rewrite C, I.
    now rewrite (token_is_error rsp "{note-noexist}") by (trivial; discriminate).
  - intros [C | I].
    + rewrite C; now destruct (NoteResponseError rsp).
    + rewrite I, andb_false_r; now destruct (NoteResponseError rsp).
Qed.

End MoreStates.

Section MoreInit.

Context {W : Type} `{World W}.

(** ** What [update_handleInit] changes, and where it stops *)

Lemma getDeviceUid_shape (h : NotecardConnectionHandler) (w : W) :
  let '(r, h', w') := getDeviceUid h w in
  (r = ERROR /\ h' = h) \/
  (r = CONNECTING /\
   exists uid, h' = set_conn_start_ms (millis w') (set_dev_uid uid h)) \/
  (r = DISCONNECTED /\ exists uid, h' = set_dev_uid uid h).
Proof.
  unfold getDeviceUid; run.
  destruct (host_alloc w) as [[|] w1]; [|now left].
  destruct (transaction _ w1) as [[r|] w2]; [|now left].
  destruct (NoteResponseError (Some r)); [now left|].
  cbn [_keep_alive set_dev_uid].
  destruct (_keep_alive h); [right; left | right; right]; split; trivial;
    now exists (JGetString (Some r) "device").
Qed.

Lemma initSteps_shape (g : NetworkConnectionState) (h : NotecardConnectionHandler)
    (w : W) :
  let '(r, h', w') := initSteps g h w in
  (h' = h /\ (r <> CONNECTING /\ r <> DISCONNECTED \/ r = g /\ g <> INIT)) \/
  (g = INIT /\ r = CONNECTING /\
   exists uid, h' = set_conn_start_ms (millis w') (set_dev_uid uid h)) \/
  (g = INIT /\ r = DISCONNECTED /\ exists uid, h' = set_dev_uid uid h).
Proof.
  assert (D : g = INIT \/ g <> INIT)
    by (destruct g; try (now left); right; discriminate).
  destruct D as [-> | N].
  - unfold initSteps, bind, ret; cbn [state_eqb].
    destruct (configureConnection h true w) as [[|] w2]; cbn [state_eqb];
      [|left; split; trivial; left; split; discriminate].
    pose proof (declareTemplate_result NOTEFILE_SSL_INBOUND
                  NOTEFILE_INBOUND_LORA_PORT w2) as R3.
    destruct (declareTemplate _ _ w2) as [r3 w3]; cbn [fst] in R3.
    destruct R3 as [-> | ->]; cbn [state_eqb];
      [|left; split; trivial; left; split; discriminate].
    pose proof (declareTemplate_result NOTEFILE_SSL_OUTBOUND
                  NOTEFILE_OUTBOUND_LORA_PORT w3) as R4.
    destruct (declareTemplate _ _ w3) as [r4 w4]; cbn [fst] in R4.
    destruct R4 as [-> | ->]; cbn [state_eqb];
      [|left; split; trivial; left; split; discriminate].
    pose proof (getDeviceUid_shape h w4) as R5.
    destruct (getDeviceUid h w4) as [[r5 h5] w5].
    destruct R5 as [(-> & ->) | [(-> & U) | (-> & U)]].
    + left; split; trivial; left; split; discriminate.
    + right; left; repeat split; trivial.
    + right; right; repeat split; trivial.
  - rewrite initSteps_skip by exact N. left; split; trivial; now right.
Qed.

(** X10.  Whatever its local held on entry, [update_handleInit] never
    touches the inbound buffer, its size or its cursor, nor the
    configuration set by the constructor.  It changes the handler only
    when it has run its steps to [CONNECTING] or [DISCONNECTED]: it then
    stores a device UID.  The start timestamp is never changed on a return
    other than [CONNECTING]; once the probe has found a note, a return of
    [CONNECTING] leaves the current clock in it. *)
Theorem update_handleInit_frame (g : NetworkConnectionState)
    (h : NotecardConnectionHandler) (w : W) :
  let w0 := notecard_begin
              (match _serial h with
               | Some serial => OverSerial serial (_uart_speed h)
               | None => OverI2C (_i2c_address h) (_i2c_max h) (_wire h)
               end) w in
  let '(r, h', w') := update_handleInit_from g h w in
  (_inbound_buffer h' = _inbound_buffer h /\
   _inbound_buffer_index h' = _inbound_buffer_index h /\
   _inbound_buffer_size h' = _inbound_buffer_size h) /\
  (exists uid t, h' = set_conn_start_ms t (set_dev_uid uid h)) /\
  (r <> CONNECTING -> _conn_start_ms h' = _conn_start_ms h) /\
  (fst (getNote h false w0) <> None ->
   r = CONNECTING -> _conn_start_ms h' = millis w') /\
  (r <> CONNECTING -> r <> DISCONNECTED -> h' = h).
Proof.
  intros w0; subst w0; unfold update_handleInit_from, begin, bind, ret.
  destruct (getNote h false _) as [note w1]; cbn [fst snd].
  set (g' := match note with Some _ => INIT | None => g end).
  assert (G : note <> None -> g' = INIT) by (subst g'; now destruct note).
  clearbody g'.
  pose proof (initSteps_shape g' h w1) as S.
  destruct (initSteps g' h w1) as [[r h'] w'].
  destruct S as [(-> & S) | [(Eg & -> & uid & ->) | (Eg & -> & uid & ->)]];
    (split; [|split; [|split; [|split]]]).
  - repeat split.
  - exists (_dev_uid h), (_conn_start_ms h); now destruct h.
  - reflexivity.
  - intros F E. destruct S as [[S _] | [_ S]]; [contradiction | now specialize (G F)].
  - reflexivity.
  - repeat split.
  - now exists uid, (millis w').
  - intros N; now contradiction N.
  - reflexivity.
  - intros N; now contradiction N.
  - repeat split.
  - exists uid, (_conn_start_ms h); now destruct h.
  - reflexivity.
  - discriminate.
  - intros _ N; now contradiction N.
Qed.

(** X11.  Once the probe has found a note, the steps of [update_handleInit] run
    in the order [hub.set], inbound template, outbound template, device
    UID, and the first step that fails ends the sequence: the handler
    returns [ERROR] unchanged and the world is the one that step left, so
    that no later transaction is issued. *)
Theorem update_handleInit_stops_at_failure (h : NotecardConnectionHandler) (w : W) :
  let w0 := notecard_begin
              (match _serial h with
               | Some serial => OverSerial serial (_uart_speed h)
               | None => OverI2C (_i2c_address h) (_i2c_max h) (_wire h)
               end) w in
  let w1 := snd (getNote h false w0) in
  let set := configureConnection h true w1 in
  let tin := declareTemplate NOTEFILE_SSL_INBOUND NOTEFILE_INBOUND_LORA_PORT (snd set) in
  let tout := declareTemplate NOTEFILE_SSL_OUTBOUND NOTEFILE_OUTBOUND_LORA_PORT (snd tin) in
  fst (getNote h false w0) <> None ->
  (fst set = false -> update_handleInit h w = (Some ERROR, h, snd set)) /\
  (fst set = true -> fst tin = ERROR ->
   update_handleInit h w = (Some ERROR, h, snd tin)) /\
  (fst set = true -> fst tin = INIT -> fst tout = ERROR ->
   update_handleInit h w = (Some ERROR, h, snd tout)) /\
  (fst set = true -> fst tin = INIT -> fst tout = INIT ->
   update_handleInit h w =
     (Some (fst (fst (getDeviceUid h (snd tout)))),
      snd (fst (getDeviceUid h (snd tout))),
      snd (getDeviceUid h (snd tout)))).
Proof.
  intros w0 w1 set tin tout; subst w0 w1 set tin tout.
  unfold update_handleInit, begin, bind, ret.
  destruct (getNote h false _) as [[note|] w1]; cbn [fst snd]; [intros _|contradiction].
  cbn [state_eqb].
  destruct (configureConnection h true w1) as [[|] w2]; cbn [fst snd state_eqb];
    [|repeat split; intros; trivial; discriminate].
  destruct (declareTemplate _ _ w2) as [r3 w3]; cbn [fst snd].
  split; [discriminate|]; split; [intros _ ->; reflexivity|].
  split; intros _ ->; cbn [state_eqb];
    destruct (declareTemplate _ _ w3) as [r4 w4]; cbn [fst snd];
    intros ->; cbn [state_eqb]; [reflexivity|].
  now destruct (getDeviceUid h w4) as [[r5 h5] w5].
Qed.

(** ** The timeout across a rollover of the clock *)

(** X12.  When the probe does not report relay-connected and the millisecond
    clock has rolled over past zero since the start timestamp, the tick in
    [CONNECTING] still compares the time really elapsed with the timeout. *)
Theorem update_handleConnecting_rollover (T : Z) (h : NotecardConnectionHandler)
    (w : W) :
  connected_to_notehub (status_of_uint (fst (connected w))) = false ->
  0 <= millis (snd (connected w)) < _conn_start_ms h ->
  _conn_start_ms h < 2 ^ 32 ->
  fst (update_handleConnecting T h w) =
    if millis (snd (connected w)) + 2 ^ 32 - _conn_start_ms h >? T
    then INIT else CONNECTING.
Proof.
  intros N R B; rewrite update_handleConnecting_eq, N; cbn [fst].
  unfold elapsed_ms, wrap32.
  replace (millis (snd (connected w)) - _conn_start_ms h)
    with (millis (snd (connected w)) + 2 ^ 32 - _conn_start_ms h + (-1) * 2 ^ 32)
    by lia.
  rewrite Z.mod_add, Z.mod_small by lia; reflexivity.
Qed.

End MoreInit.

Section MoreStream.

Context {W : Type} `{World W}.

(** ** The invariant of the inbound buffer *)

(** X13.  Both constructors give an empty, exhausted buffer that satisfies the
    buffer invariant (size equal to the length of the buffer, cursor
    between zero and the size).  Under the invariant [read] always has a
    defined result, never an access outside the buffer, and keeps the
    invariant; [available] keeps it as long as a dequeued payload fits the
    32-bit size. *)
Theorem buffer_invariant :
  (forall project_uid en_hw_int keep_alive address max wire url,
     buffer_ok (new_i2c project_uid en_hw_int keep_alive address max wire url) /\
     exhausted (new_i2c project_uid en_hw_int keep_alive address max wire url)) /\
  (forall project_uid serial speed en_hw_int keep_alive url,
     buffer_ok (new_serial project_uid serial speed en_hw_int keep_alive url) /\
     exhausted (new_serial project_uid serial speed en_hw_int keep_alive url)) /\
  (forall (h : NotecardConnectionHandler) (w : W),
     buffer_ok h ->
     exists x h', read h w = (Some (x, h'), w) /\ buffer_ok h') /\
  (forall (h : NotecardConnectionHandler) (w : W),
     buffer_ok h ->
     (forall note bs,
        fst (getNote h true w) = Some note ->
        JGetBinaryFromObject note "payload" = Some bs ->
        Z.of_nat (List.length bs) < 2 ^ 32) ->
     buffer_ok (snd (fst (available h w)))).
Proof.
  split; [|split; [|split]].
  - intros; split; [apply buffer_ok_new_i2c | unfold exhausted; cbn; lia].
  - intros; split; [apply buffer_ok_new_serial | unfold exhausted; cbn; lia].
  - intros h w K.
    destruct (Z.lt_ge_cases (_inbound_buffer_index h) (_inbound_buffer_size h)) as [U|U].
    + destruct (read_unread h w K U) as (b & _ & R).
      do 2 eexists; split; [exact R|].
      apply (read_preserves_buffer_ok h _ (byte_to_int b) w K); now rewrite R.
    + do 2 eexists; split; [apply read_exhausted; exact U | exact K].
  - apply available_preserves_buffer_ok.
Qed.

(** ** Reloading the buffer from a note *)

(** X14.  With no unread byte left, whenever the dequeue yields a note
    [available] returns true with the cursor at zero and issues no further
    transaction, and a payload that the library hands over becomes the
    buffer, with its length as the size. *)
Theorem available_reload (h : NotecardConnectionHandler) (w : W) (note : J) :
  exhausted h ->
  fst (getNote h true w) = Some note ->
  let h' := snd (fst (available h w)) in
  fst (fst (available h w)) = true /\
  snd (available h w) = snd (getNote h true w) /\
  _inbound_buffer_index h' = 0 /\
  (forall bs,
     JGetBinaryFromObject note "payload" = Some bs ->
     Z.of_nat (List.length bs) < 2 ^ 32 ->
     _inbound_buffer h' = bs /\
     _inbound_buffer_size h' = Z.of_nat (List.length bs)).
Proof.
  unfold exhausted, available, bind, ret; intros X N.
  apply Z.ltb_ge in X; rewrite X; cbn [negb].
  destruct (getNote h true w) as [n w1]; cbn [fst snd] in *; subst n.
  cbn [fst snd]; split; [reflexivity | split; [reflexivity | split; [reflexivity|]]].
  intros bs -> B; fields; split; [reflexivity|].
  unfold wrap32; apply Z.mod_small; lia.
Qed.

Lemma drain_unfold (fuel : nat) (h : NotecardConnectionHandler) (w : W) :
  drain (S fuel) h w =
    (let '(a, h1, w1) := available h w in
     if a : bool then
       match read h1 w1 with
       | (None, w2) => (None, w2)
       | (Some (x, h2), w2) =>
           let (rest, w3) := drain fuel h2 w2 in
           (match rest with
            | Some (l, h3) => Some (x :: l, h3)
            | None => None
            end, w3)
       end
     else (Some ([], h1), w1)).
Proof.
  cbn [drain]; unfold bind, ret.
  destruct (available h w) as [[[|] h1] w1]; [|reflexivity].
  destruct (read h1 w1) as [[[x h2]|] w2]; reflexivity.
Qed.

(** Rounds of the consumer loop served from the buffer, followed by
    whatever the loop does once the buffer is exhausted. *)
Lemma drain_buffered_then (rest pre : list byte) (h hf : NotecardConnectionHandler)
    (w wf : W) (k : nat) (l : list Z) :
  _inbound_buffer h = (pre ++ rest)%list ->
  _inbound_buffer_index h = Z.of_nat (List.length pre) ->
  _inbound_buffer_size h = Z.of_nat (List.length (pre ++ rest)) ->
  _inbound_buffer_size h < 2 ^ 32 ->
  drain (S k) (set_inbound_buffer_index (_inbound_buffer_size h) h) w
    = (Some (l, hf), wf) ->
  drain (S (List.length rest + k)) h w
    = (Some (map byte_to_int rest ++ l, hf)%list, wf).
Proof.
  revert pre h; induction rest as [|b rest IH]; intros pre h B I Sz R D.
  - cbn [List.length map app Nat.add]. rewrite <- D; f_equal.
    rewrite app_nil_r in Sz.
    destruct h; unfold set_inbound_buffer_index; cbn in *; congruence.
  - assert (K : buffer_ok h).
    { unfold buffer_ok; rewrite B, I; rewrite Sz in R |- *.
      rewrite !length_app in *; cbn [List.length] in *; lia. }
    assert (U : _inbound_buffer_index h < _inbound_buffer_size h).
    { rewrite I, Sz, length_app; cbn [List.length]; lia. }
    cbn [List.length Nat.add]; rewrite drain_unfold.
    rewrite (available_unread h w U).
    destruct (read_unread h w K U) as (c & N & E); rewrite E.
    rewrite B, I, Nat2Z.id, nth_error_app2, Nat.sub_diag in N by lia.
    cbn in N; inversion N; subst c.
    rewrite (IH (pre ++ [b])%list _).
    + reflexivity.
    + destruct h; unfold set_inbound_buffer_index; cbn in *; now rewrite <- app_assoc.
    + destruct h; unfold set_inbound_buffer_index; cbn in *;
        rewrite length_app; cbn [List.length]; lia.
    + destruct h; unfold set_inbound_buffer_index; cbn in *;
        rewrite <- app_assoc; exact Sz.
    + destruct h; unfold set_inbound_buffer_index; cbn in *; exact R.
    + destruct h; unfold set_inbound_buffer_index in *; cbn in *; exact D.
Qed.

End MoreStream.

(** ** Several notes in the inbound queue *)

(** X15.  On the loop-back Notecard, with nothing unread in the handler, the
    consumer loop reads every queued note, oldest first, each one from its
    first byte to its last, and stops with the queue empty and the buffer
    exhausted: the bytes read are the payloads in order, none lost and
    none read twice.  The notes are not empty and fit the 32-bit size. *)
Theorem drain_queue_fifo (notes : list (list byte)) (h : NotecardConnectionHandler)
    (out : list (list byte)) (clock : Z) :
  exhausted h ->
  Forall (fun bs => bs <> [] /\ Z.of_nat (List.length bs) < 2 ^ 32) notes ->
  exists h',
    drain (S (List.length (List.concat notes))) h (Loopback.mk out notes clock) =
      (Some (map byte_to_int (List.concat notes), h'), Loopback.mk out [] clock) /\
    exhausted h'.
Proof.
  revert h; induction notes as [|bs notes IH]; intros h X F.
  - exists h; split; [|exact X]. cbn [List.concat List.length map].
    rewrite drain_step, loopback_available_empty; trivial.
  - inversion F as [|? ? [NE B] F']; subst.
    destruct bs as [|b bs]; [contradiction|].
    set (h1 := set_inbound_buffer_index 0
                 (set_inbound_buffer (b :: bs)
                    (wrap32 (Z.of_nat (List.length (b :: bs)))) h)).
    assert (S1 : _inbound_buffer_size h1 = Z.of_nat (List.length (b :: bs))).
    { subst h1; fields. unfold wrap32; apply Z.mod_small; lia. }
    assert (K : buffer_ok h1).
    { unfold buffer_ok; rewrite S1; subst h1; fields; lia. }
    assert (U : _inbound_buffer_index h1 < _inbound_buffer_size h1).
    { rewrite S1; subst h1; fields; cbn [List.length]; lia. }
    set (h2 := set_inbound_buffer_index (_inbound_buffer_index h1 + 1) h1).
    assert (S2 : _inbound_buffer_size h2 = Z.of_nat (List.length (b :: bs))).
    { subst h2; rewrite <- S1; reflexivity. }
    destruct (IH (set_inbound_buffer_index (_inbound_buffer_size h2) h2))
      as (hf & D & Xf); [unfold exhausted; fields; lia | exact F' |].
    exists hf; split; [|exact Xf].
    cbn [List.concat]; rewrite length_app, map_app; cbn [List.length app map Nat.add].
    rewrite drain_step, loopback_dequeue by exact X. fold h1.
    destruct (read_unread h1 (Loopback.mk out notes clock) K U) as (c & N & E).
    rewrite E. assert (c = b) by (subst h1; cbn in N; congruence); subst c.
    fold h2.
    rewrite (drain_buffered_then bs [b] h2 hf _ (Loopback.mk out [] clock)
               (List.length (List.concat notes)) (map byte_to_int (List.concat notes)));
      trivial.
    + rewrite S2; exact B.
Qed.

(** ** These theorems at sample handlers and worlds *)

Lemma connected_flags_meaningful_witness :
  status_of_uint
    (fst (connected (Samples.scripted [] [Some [("err", JString "no modem {io}")]] 0)))
  = mkStatus false false true false 0.
Proof.
  apply (proj1 (connected_flags_meaningful
                  (Samples.scripted [] [Some [("err", JString "no modem {io}")]] 0))
           [("err", JString "no modem {io}")]);
    reflexivity.
Defined.

Lemma failed_probe_transitions_witness :
  fst (update_handleConnected Samples.handler (Samples.scripted [false] [] 0))
    = DISCONNECTED /\
  fst (update_handleConnecting 185000 Samples.handler (Samples.scripted [false] [] 0))
    <> CONNECTED.
Proof.
  apply (failed_probe_transitions 185000 Samples.handler (Samples.scripted [false] [] 0)).
  left; reflexivity.
Defined.

Lemma getTime_result_witness :
  getTime (Samples.scripted [] [Some [("time", JNumber 1700000000)]] 0) =
    (1700000000, Scripted.mk [] [] 0 [[("req", JString "card.time")]]).
Proof.
  destruct (getTime_result (Samples.scripted [] [Some [("time", JNumber 1700000000)]] 0))
    as (_ & P & _).
  destruct (P (Samples.scripted [] [Some [("time", JNumber 1700000000)]] 0)
              (Scripted.mk [] [] 0 [[("req", JString "card.time")]])
              (Some [("time", JNumber 1700000000)]) eq_refl eq_refl) as (_ & Q).
  destruct Q as (R & _); [discriminate | reflexivity |].
  apply R; simpl; lia.
Defined.

Lemma update_handleDisconnected_next_witness :
  update_handleDisconnected Samples.handler Samples.idle = (INIT, Samples.idle) /\
  fst (update_handleDisconnected
         (new_serial "com.example:sensor" 1%nat 9600 false false EmptyString)
         Samples.idle) = CLOSED.
Proof.
  split.
  - apply (proj1 (update_handleDisconnected_next Samples.handler Samples.idle)).
    reflexivity.
  - rewrite (proj2 (update_handleDisconnected_next
                      (new_serial "com.example:sensor" 1%nat 9600 false false EmptyString)
                      Samples.idle)); reflexivity.
Defined.

Lemma getNote_rearms_on_empty_only_witness :
  getNote Samples.handler true Samples.idle = (None, snd (armInterrupt Samples.idle)).
Proof.
  destruct (getNote_rearms_on_empty_only Samples.handler true
              Samples.idle Samples.idle Samples.idle
              (Some (Loopback.error_response "no notes available in queue {note-noexist}")))
    as (_ & _ & P & _).
  - reflexivity.
  - reflexivity.
  - apply P; reflexivity.
Defined.

Lemma update_handleInit_frame_witness :
  _conn_start_ms
    (snd (fst (update_handleInit_from CLOSED Samples.handler Samples.pending))) =
    millis (snd (update_handleInit_from CLOSED Samples.handler Samples.pending)).
Proof.
  pose proof (update_handleInit_frame CLOSED Samples.handler Samples.pending) as P.
  cbv zeta in P.
  destruct (update_handleInit_from CLOSED Samples.handler Samples.pending)
    as [[r h'] w'] eqn:E.
  vm_compute in E; injection E as Er Eh Ew.
  destruct P as (_ & _ & _ & P & _).
  apply P; [discriminate | symmetry; exact Er].
Defined.

Lemma handlers_never_disconnecting_witness :
  fst (fst (update_handleInit_from DISCONNECTING Samples.handler Samples.pending))
    <> DISCONNECTING /\
  fst (fst (update_handleInit_from DISCONNECTING Samples.handler Samples.pending))
    <> CLOSED.
Proof.
  apply (proj1 (handlers_never_disconnecting 185000 Samples.handler Samples.pending)).
  discriminate.
Defined.

Lemma update_handleInit_stops_at_failure_witness :
  update_handleInit Samples.handler
    (Samples.scripted []
       [Some [("payload", JBinary [x07]%byte)]; Some [("err", JString "bad product")]] 0)
  = (Some ERROR, Samples.handler,
     Scripted.mk [] [] 0
       [[("req", JString "note.get"); ("file", JString NOTEFILE_SSL_INBOUND)];
        [("req", JString "hub.set"); ("host", JString EmptyString);
         ("product", JString "com.example:sensor"); ("mode", JString "continuous");
         ("inbound", JNumber 15); ("sync", JBoolean true)]]).
Proof.
  destruct (update_handleInit_stops_at_failure Samples.handler
              (Samples.scripted []
                 [Some [("payload", JBinary [x07]%byte)];
                  Some [("err", JString "bad product")]] 0)) as (A & _).
  - discriminate.
  - rewrite A; reflexivity.
Defined.

Lemma update_handleConnecting_rollover_witness :
  fst (update_handleConnecting 185000
         (set_conn_start_ms 4294966296 Samples.handler)
         (Samples.scripted [] [Some Samples.transport_only] 100)) = CONNECTING.
Proof.
  rewrite (update_handleConnecting_rollover 185000
             (set_conn_start_ms 4294966296 Samples.handler)
             (Samples.scripted [] [Some Samples.transport_only] 100)).
  - reflexivity.
  - reflexivity.
  - simpl; lia.
  - simpl; lia.
Defined.

Lemma buffer_invariant_witness :
  exists x h',
    read Samples.reading Samples.idle = (Some (x, h'), Samples.idle) /\ buffer_ok h'.
Proof.
  apply (proj1 (proj2 (proj2 buffer_invariant)) Samples.reading Samples.idle).
  unfold buffer_ok; simpl; lia.
Defined.

Lemma available_reload_witness :
  let h' := snd (fst (available Samples.handler Samples.pending)) in
  fst (fst (available Samples.handler Samples.pending)) = true /\
  _inbound_buffer_index h' = 0 /\
  _inbound_buffer h' = [x07]%byte /\
  _inbound_buffer_size h' = 1.
Proof.
  destruct (available_reload Samples.handler Samples.pending
              [("payload", JBinary [x07]%byte)]) as (A & _ & I & B).
  - unfold exhausted; simpl; lia.
  - reflexivity.
  - destruct (B [x07]%byte eq_refl) as (B1 & B2); [simpl; lia|].
    repeat split; assumption.
Defined.

Lemma drain_queue_fifo_witness :
  exists h',
    drain 4 Samples.handler (Loopback.mk [] [[x01; x02]; [x03]]%byte 0) =
      (Some ([1; 2; 3], h'), Loopback.mk [] [] 0) /\
    exhausted h'.
Proof.
  apply (drain_queue_fifo [[x01; x02]; [x03]]%byte Samples.handler [] 0).
  - unfold exhausted; simpl; lia.
  - repeat constructor; try discriminate; simpl; lia.
Defined.

(** ** The integer that [connected] returns *)

(** X2.  [connected] returns 8 when the status query gets no answer and 4 when
    the answer carries a protocol error; otherwise bit 0 tells whether the
    status text holds [{connected}] and bit 1 is the [connected] boolean of
    the answer.  The value is always below 16. *)
Theorem connected_encoding {W : Type} `{World W} (w : W) :
  fst (connected w) =
    match fst (hub_status_response w) with
    | None => 8
    | Some r =>
        if NoteResponseError (Some r) then 4
        else Z.b2z (strstr (JGetString (Some r) "status") "{connected}")
             + 2 * Z.b2z (JGetBool (Some r) "connected")
    end /\
  0 <= fst (connected w) < 16.
Proof.
  destruct (connected_decoded w) as (st & -> & _ & ->).
  destruct (fst (hub_status_response w)) as [r|]; [|cbn; lia].
  destruct (NoteResponseError (Some r)); [cbn; lia|].
  destruct (strstr _ _), (JGetBool _ _); cbn; lia.
Qed.
